(** * beartai_faceswap: the face-swap relay of [main.py]

    A shallow embedding of [main.py] and the properties of its format
    sniffer, vendor job client, bearer-token check, storage publisher and
    HTTP endpoint.

    Conventions of the embedding:
    - [bytes] values are lists of [Byte.byte];
    - [str] values are [string]s: header values reach the handler decoded
      as Latin-1 (one character per byte), every other text is kept as its
      UTF-8 bytes;
    - Python integers are [Z];
    - code that raises returns [Raise e], code that returns gives
      [Return v]; whatever touches the network, the disk, the clock or the
      log threads a [World] and reads an [Env] of oracles. *)

From Stdlib Require Import ZArith QArith List Bool Lia.
From Stdlib Require Import Strings.String Strings.Ascii Strings.Byte.
From Stdlib Require Import Numbers.DecimalString.
Import ListNotations.

Open Scope Z_scope.
Open Scope string_scope.

Set Implicit Arguments.
Set Warnings "-register-all".

(** ** Python sequences *)

Definition bytes := list byte.

Definition b_ (s : string) : bytes := list_byte_of_string s.

Fixpoint bytes_eqb (a b : bytes) : bool :=
  match a, b with
  | [], [] => true
  | x :: a', y :: b' => Byte.eqb x y && bytes_eqb a' b'
  | _, _ => false
  end.

(** [data.startswith(prefix)] *)
Fixpoint startswith (data pre : bytes) {struct pre} : bool :=
  match pre, data with
  | [], _ => true
  | p :: pre', d :: data' => Byte.eqb d p && startswith data' pre'
  | _ :: _, [] => false
  end.

(** [data[lo:hi]] for literal bounds [0 <= lo <= hi] *)
Definition slice (lo hi : nat) (data : bytes) : bytes :=
  firstn (hi - lo) (skipn lo data).

(** ** The format sniffer *)

Definition sig_jpeg : bytes := [xff; xd8; xff].
Definition sig_png : bytes := [x89; x50; x4e; x47; x0d; x0a; x1a; x0a].
Definition sig_gif87a : bytes := b_ "GIF87a".
Definition sig_gif89a : bytes := b_ "GIF89a".
Definition sig_riff : bytes := b_ "RIFF".
Definition sig_webp : bytes := b_ "WEBP".
Definition sig_bm : bytes := b_ "BM".

(** The signatures as the specification words them: a format is recognised
    when given bytes stand at given offsets of the 12-byte header. *)

Inductive ImageFormat := JPEG | PNG | GIF87a | GIF89a | WEBP | BMP.

Definition has_bytes (buf : bytes) (off : nat) (sig : bytes) : Prop :=
  forall i b, nth_error sig i = Some b -> nth_error buf (off + i) = Some b.

Definition matches_signature (buf : bytes) (f : ImageFormat) : Prop :=
  let header := firstn 12 buf in
  match f with
  | JPEG => has_bytes header 0 [xff; xd8; xff]
  | PNG => has_bytes header 0 [x89; x50; x4e; x47; x0d; x0a; x1a; x0a]
  | GIF87a => has_bytes header 0 [x47; x49; x46; x38; x37; x61]
  | GIF89a => has_bytes header 0 [x47; x49; x46; x38; x39; x61]
  | WEBP => has_bytes header 0 [x52; x49; x46; x46]
            /\ has_bytes header 8 [x57; x45; x42; x50]
  | BMP => has_bytes header 0 [x42; x4d]
  end.

Definition recognized (buf : bytes) : Prop :=
  exists f, matches_signature buf f.

Definition mime_of (f : ImageFormat) : string :=
  match f with
  | JPEG => "image/jpeg"
  | PNG => "image/png"
  | GIF87a | GIF89a => "image/gif"
  | WEBP => "image/webp"
  | BMP => "image/bmp"
  end.


(** ** Python values decoded from JSON, and exceptions *)

(** What [resp.json()] hands back.  A float is its exact rational value,
    [None] standing for NaN and the infinities; an object is the decoded
    dict as the list of its items, a key being looked up from the front. *)
Inductive JSON :=
| JNull
| JBool (b : bool)
| JInt (z : Z)
| JFloat (q : option Q)
| JStr (s : string)
| JArr (l : list JSON)
| JObj (d : list (string * JSON)).

(** The exception classes the program meets.  Every one of them derives
    from Python's [Exception]: [fastapi.HTTPException] through Starlette's
    class of the same name, the lookup errors through [LookupError], and
    [LibraryError cls msg] stands for an exception of class [cls] raised
    inside [requests], [qcloud_cos], [os] or the JSON decoder. *)
Inductive exn :=
| HTTPException (status_code : Z) (detail : string)
| Exception (msg : string)
| KeyError (key_repr : string)
| IndexError (msg : string)
| TypeError (msg : string)
| AttributeError (msg : string)
| ValueError (msg : string)
| LibraryError (cls msg : string).

Definition isinstance_Exception (e : exn) : bool :=
  match e with
  | HTTPException _ _ | Exception _ | KeyError _ | IndexError _
  | TypeError _ | AttributeError _ | ValueError _ | LibraryError _ _ => true
  end.

Inductive Result (A : Type) :=
| Return (a : A)
| Raise (e : exn).
Arguments Return {A} a.
Arguments Raise {A} e.

Definition Z_to_string (z : Z) : string :=
  NilEmpty.string_of_int (Z.to_int z).

Definition squote (s : string) : string := "'" ++ s ++ "'".

(** [str(e)] *)
Definition exn_str (e : exn) : string :=
  match e with
  | HTTPException c d => Z_to_string c ++ ": " ++ d
  | Exception m => m
  | KeyError k => k
  | IndexError m | TypeError m | AttributeError m | ValueError m => m
  | LibraryError _ m => m
  end.

Definition type_name (v : JSON) : string :=
  match v with
  | JNull => "NoneType"
  | JBool _ => "bool"
  | JInt _ => "int"
  | JFloat _ => "float"
  | JStr _ => "str"
  | JArr _ => "list"
  | JObj _ => "dict"
  end.

Fixpoint dict_lookup {V : Type} (d : list (string * V)) (k : string)
  : option V :=
  match d with
  | [] => None
  | (k', v) :: d' => if String.eqb k' k then Some v else dict_lookup d' k
  end.

(** [d[k] = v] on a dict: an existing key keeps its place, a new one goes
    last. *)
Fixpoint dict_set {V : Type} (d : list (string * V)) (k : string) (v : V)
  : list (string * V) :=
  match d with
  | [] => [(k, v)]
  | (k', v') :: d' =>
      if String.eqb k' k then (k, v) :: d' else (k', v') :: dict_set d' k v
  end.

(** [k in d] *)
Definition dict_mem {V : Type} (d : list (string * V)) (k : string) : bool :=
  match dict_lookup d k with Some _ => true | None => false end.

(** [v.get(k)] *)
Definition py_get (v : JSON) (k : string) : Result JSON :=
  match v with
  | JObj d => Return (match dict_lookup d k with Some x => x | None => JNull end)
  | _ => Raise (AttributeError
                  (squote (type_name v) ++ " object has no attribute 'get'"))
  end.

(** [v == n] for an integer literal [n] *)
Definition py_eq_int (v : JSON) (n : Z) : bool :=
  match v with
  | JInt z => Z.eqb z n
  | JFloat (Some q) => Qeq_bool q (inject_Z n)
  | JBool b => Z.eqb (if b then 1 else 0) n
  | _ => false
  end.

Definition not_subscriptable (v : JSON) : exn :=
  TypeError (squote (type_name v) ++ " object is not subscriptable").

(** [v[k]] for a string literal [k] *)
Definition getitem_str (v : JSON) (k : string) : Result JSON :=
  match v with
  | JObj d =>
      match dict_lookup d k with
      | Some x => Return x
      | None => Raise (KeyError (squote k))
      end
  | JArr _ => Raise (TypeError "list indices must be integers or slices, not str")
  | JStr _ => Raise (TypeError "string indices must be integers, not 'str'")
  | _ => Raise (not_subscriptable v)
  end.

(** The first character of a text held as UTF-8: one to four bytes,
    told by the leading byte. *)
Definition first_char (s : string) : string :=
  match s with
  | EmptyString => EmptyString
  | String c _ =>
      let n := nat_of_ascii c in
      substring 0 (if Nat.ltb n 192 then 1
                   else if Nat.ltb n 224 then 2
                   else if Nat.ltb n 240 then 3 else 4)%nat s
  end.

(** [v[0]].  The keys of a decoded object are strings, so [0] is never
    one of them. *)
Definition getitem_0 (v : JSON) : Result JSON :=
  match v with
  | JArr (x :: _) => Return x
  | JArr [] => Raise (IndexError "list index out of range")
  | JStr EmptyString => Raise (IndexError "string index out of range")
  | JStr s => Return (JStr (first_char s))
  | JObj _ => Raise (KeyError "0")
  | _ => Raise (not_subscriptable v)
  end.

(** ** Configuration read at start-up *)

(** [os.getenv] gives [None] for a variable that is not set. *)
Record Config := {
  REGION : option string;
  SECRET_ID : option string;
  SECRET_KEY : option string;
  BUCKET : option string;
  IMAGE_OUTPUT_PATH : option string;
  PRODUCT_SERIAL : option string;
  VALID_TOKENS : option string
}.

Definition getenv_default (v : option string) (default : string) : string :=
  match v with Some s => s | None => default end.

(** [s.split(sep)] for a one-character separator: the pieces between the
    separators, empty pieces kept. *)
Fixpoint split (sep : ascii) (s : string) : list string :=
  match s with
  | EmptyString => [EmptyString]
  | String c s' =>
      if Ascii.eqb c sep then EmptyString :: split sep s'
      else match split sep s' with
           | [] => [String c EmptyString]
           | piece :: rest => String c piece :: rest
           end
  end.

Definition region (cfg : Config) := REGION cfg.
Definition secret_id (cfg : Config) := SECRET_ID cfg.
Definition secret_key (cfg : Config) := SECRET_KEY cfg.
Definition bucket (cfg : Config) := BUCKET cfg.
Definition image_output_path (cfg : Config) : string :=
  getenv_default (IMAGE_OUTPUT_PATH cfg) "./output".
Definition product_serial (cfg : Config) := PRODUCT_SERIAL cfg.
Definition valid_tokens (cfg : Config) : list string :=
  split "," (getenv_default (VALID_TOKENS cfg) "token1,token2").

(** How an f-string shows a value that may be [None]. *)
Definition fmt_opt (v : option string) : string :=
  match v with Some s => s | None => "None" end.

(** ** The outside world *)

Definition Headers := list (string * option string).

Record FilePart := {
  part_filename : string;
  part_content : bytes;
  part_content_type : string
}.

(** A call of [requests.post] or [requests.get].  The URL of a GET is the
    Python value the caller passes, which for the download is whatever the
    vendor put in its output list. *)
Inductive Request :=
| POST (url : string) (headers : Headers) (files : list (string * FilePart))
| GET (url : JSON) (headers : Headers) (stream : bool).

(** A [requests.Response]: what its attributes and methods give. *)
Record Response := {
  status_code : Z;
  text : string;
  json : Result JSON;              (* [resp.json()] *)
  http_error_msg : string;         (* text of the error of [raise_for_status] *)
  body_chunks : list bytes;        (* what [iter_content] yields ... *)
  body_error : option exn          (* ... and the error that ends it, if any *)
}.

(** The keyword arguments of the storage client and of its upload. *)
Record CosCall := {
  Region : option string;
  SecretId : option string;
  SecretKey : option string;
  Bucket : option string;
  LocalFilePath : string;
  Key : string
}.

Inductive Event :=
| EvRequest (r : Request)
| EvSleep (seconds : Z)
| EvMakedirs (path : string)
| EvWrite (path : string) (content : bytes)
| EvCosUpload (c : CosCall)
| EvRemove (path : string)
| EvLog (msg : string).

(** The state a request runs in: everything that happened so far, oldest
    first, and the disk. *)
Record World := {
  events : list Event;
  files : list (string * bytes);
  dirs : list string
}.

(** The oracles: the network answers the [n]-th request of the run, the
    storage provider answers an upload of a file (or of a missing one),
    the clock and the random generator give the two parts of a file name,
    and [format_value] is the text an f-string gives a decoded value. *)
Record Env := {
  http : nat -> Request -> Result Response;
  cos_upload_file : CosCall -> option bytes -> Result (list (string * string));
  now_strftime : string;
  entropy : Z;
  format_value : JSON -> string
}.

Definition is_request (e : Event) : bool :=
  match e with EvRequest _ => true | _ => false end.

(** The network calls among some events. *)
Definition requests_made (evs : list Event) : list Event :=
  filter is_request evs.

(** ** A monad of state and exceptions *)

Definition M (A : Type) := World -> Result A * World.

Definition ret {A} (a : A) : M A := fun w => (Return a, w).
Definition raise {A} (e : exn) : M A := fun w => (Raise e, w).

Definition bind {A B} (m : M A) (k : A -> M B) : M B :=
  fun w => match m w with
           | (Return a, w') => k a w'
           | (Raise e, w') => (Raise e, w')
           end.

Definition lift {A} (r : Result A) : M A := fun w => (r, w).

(** [try: body  except Exception as e: handler e] *)
Definition try_except {A} (body : M A) (handler : exn -> M A) : M A :=
  fun w => match body w with
           | (Return a, w') => (Return a, w')
           | (Raise e, w') =>
               if isinstance_Exception e then handler e w' else (Raise e, w')
           end.

Declare Scope monad_scope.
Delimit Scope monad_scope with monad.
Notation "x <- m ;; k" := (bind m (fun x => k))
  (at level 61, m at next level, right associativity) : monad_scope.
Notation "m ;;; k" := (bind m (fun _ => k))
  (at level 61, right associativity) : monad_scope.
Open Scope monad_scope.

Definition emit (e : Event) : M unit :=
  fun w => (Return tt,
            {| events := events w ++ [e]; files := files w; dirs := dirs w |}).

(** ** The program *)

Definition dq : string := String (ascii_of_nat 34) EmptyString.

(** [requests.post] and [requests.get]: the call is recorded, then the
    network answers or the library raises. *)
Definition requests_call (env : Env) (r : Request) : M Response :=
  fun w =>
    let n := List.length (requests_made (events w)) in
    (http env n r,
     {| events := events w ++ [EvRequest r];
        files := files w; dirs := dirs w |}).

(** [time.sleep(seconds)] *)
Definition time_sleep (seconds : Z) : M unit :=
  if (seconds <? 0)%Z then raise (ValueError "sleep length must be non-negative")
  else emit (EvSleep seconds).

Module FaceSwapService.

Definition API_HEADERS : Headers :=
  [ ("accept", Some "*/*");
    ("accept-language", Some "zh-CN,zh;q=0.9");
    ("origin", Some "https://beart.ai");
    ("priority", Some "u=1, i");
    ("product-code", Some "067003");
    ("referer", Some "https://beart.ai/");
    ("sec-ch-ua",
      Some (dq ++ "Google Chrome" ++ dq ++ ";v=" ++ dq ++ "129" ++ dq ++ ", "
            ++ dq ++ "Not=A?Brand" ++ dq ++ ";v=" ++ dq ++ "8" ++ dq ++ ", "
            ++ dq ++ "Chromium" ++ dq ++ ";v=" ++ dq ++ "129" ++ dq));
    ("sec-ch-ua-mobile", Some "?0");
    ("sec-ch-ua-platform", Some (dq ++ "Windows" ++ dq));
    ("sec-fetch-dest", Some "empty");
    ("sec-fetch-mode", Some "cors");
    ("sec-fetch-site", Some "same-site");
    ("user-agent", Some "Mozilla/5.0 (Windows NT 10.0; Win64; x64)...") ].

Definition _validate_image (image_data : bytes) : bool :=
  let header := firstn 12 image_data in
  existsb (fun b : bool => b)
    [ startswith header sig_jpeg;
      startswith header sig_png;
      startswith header sig_gif87a; startswith header sig_gif89a;
      startswith header sig_riff && bytes_eqb (slice 8 12 header) sig_webp;
      startswith header sig_bm ].

Definition _get_mime_type (image_data : bytes) : string :=
  let header := firstn 12 image_data in
  if startswith header sig_jpeg then "image/jpeg"
  else if startswith header sig_png then "image/png"
  else if startswith header sig_gif87a || startswith header sig_gif89a
       then "image/gif"
  else if startswith header sig_riff && bytes_eqb (slice 8 12 header) sig_webp
       then "image/webp"
  else if startswith header sig_bm then "image/bmp"
  else "image/jpeg".

Section Vendor.
Variable cfg : Config.
Variable env : Env.

(** The multipart fields of the create-job call. *)
Definition create_job_files (source_image target_image : bytes)
  : list (string * FilePart) :=
  [ ("target_image",
      {| part_filename := "target.jpg"; part_content := source_image;
         part_content_type := _get_mime_type source_image |});
    ("swap_image",
      {| part_filename := "source.jpg"; part_content := target_image;
         part_content_type := _get_mime_type target_image |}) ].

Definition create_face_swap_job (source_image target_image : bytes) : M JSON :=
  let url := "https://api.beart.ai/api/beart/face-swap/create-job" in
  let headers := dict_set API_HEADERS "product-serial" (product_serial cfg) in
  let files := create_job_files source_image target_image in
  resp <- requests_call env (POST url headers files) ;;
  ok <- (if (status_code resp =? 200)%Z
         then data <- lift (json resp) ;;
              code <- lift (py_get data "code") ;;
              ret (py_eq_int code 100000)
         else ret false) ;;
  if ok : bool
  then data <- lift (json resp) ;;
       result <- lift (getitem_str data "result") ;;
       lift (getitem_str result "job_id")
  else raise (Exception ("BeArt 任务创建失败: " ++ text resp)).

(** The body of [for _ in range(retries)], with the attempts that are
    left, and the [raise] that follows the loop. *)
Fixpoint poll_loop (attempts : nat) (url : string) (headers : Headers)
  (interval : Z) : M JSON :=
  match attempts with
  | O => raise (Exception "超过最大重试次数")
  | S attempts' =>
      resp <- requests_call env (GET (JStr url) headers false) ;;
      if (status_code resp =? 200)%Z
      then data <- lift (json resp) ;;
           code <- lift (py_get data "code") ;;
           if py_eq_int code 100000
           then result <- lift (getitem_str data "result") ;;
                output <- lift (getitem_str result "output") ;;
                lift (getitem_0 output)
           else code' <- lift (py_get data "code") ;;
                if py_eq_int code' 300001
                then time_sleep interval ;;;
                     poll_loop attempts' url headers interval
                else raise (Exception "换脸结果获取失败")
      else raise (Exception "换脸结果获取失败")
  end.

Definition get_job_url (job_id : JSON) : string :=
  "https://api.beart.ai/api/beart/face-swap/get-job/" ++ format_value env job_id.

Definition get_face_swap_result (job_id : JSON) (retries interval : Z) : M JSON :=
  let url := get_job_url job_id in
  let headers := API_HEADERS in
  poll_loop (Z.to_nat retries) url headers interval.

End Vendor.
End FaceSwapService.

(** ** The bearer-token check *)

(** [s.partition(sep)] for a one-character separator. *)
Fixpoint partition (sep : ascii) (s : string) : string * string * string :=
  match s with
  | EmptyString => (EmptyString, EmptyString, EmptyString)
  | String c s' =>
      if Ascii.eqb c sep then (EmptyString, String sep EmptyString, s')
      else match partition sep s' with
           | (_, EmptyString, _) => (s, EmptyString, EmptyString)
           | (before, found, after) => (String c before, found, after)
           end
  end.

(** [c.lower()] for a character of Latin-1: A-Z, and the accented capitals
    U+00C0-U+00DE but for the multiplication sign U+00D7. *)
Definition lower_char (c : ascii) : ascii :=
  let n := nat_of_ascii c in
  if (Nat.leb 65 n && Nat.leb n 90)
     || (Nat.leb 192 n && Nat.leb n 222 && negb (Nat.eqb n 215))
  then ascii_of_nat (n + 32)
  else c.

Fixpoint lower (s : string) : string :=
  match s with
  | EmptyString => EmptyString
  | String c s' => String (lower_char c) (lower s')
  end.

(** [tok in tokens] *)
Definition str_in (tok : string) (tokens : list string) : bool :=
  existsb (String.eqb tok) tokens.

(** [authorization] is [None] when the request has no such header. *)
Definition verify_auth_token (cfg : Config) (authorization : option string)
  : Result string :=
  match authorization with
  | None | Some EmptyString =>
      Raise (HTTPException 401 "Missing Authorization Header")
  | Some authorization =>
      let '(scheme, _, token) := partition " " authorization in
      if negb (String.eqb (lower scheme) "bearer")
         || negb (str_in token (valid_tokens cfg))
      then Raise (HTTPException 403 "Invalid or Expired Token")
      else Return token
  end.

(** ** Download, upload and the endpoint *)

(** [os.path.join(a, b)] on POSIX *)
Definition os_path_join (a b : string) : string :=
  if prefix "/" b then b
  else if String.eqb a "" then b
  else if String.eqb (substring (String.length a - 1) 1 a) "/" then a ++ b
  else a ++ "/" ++ b.

(** The disk is a table from path to content and a list of directories;
    paths are compared as texts, and the disk itself never fails. *)
Definition path_exists (p : string) (w : World) : bool :=
  dict_mem (files w) p || existsb (String.eqb p) (dirs w).

Fixpoint dict_remove {V : Type} (d : list (string * V)) (k : string)
  : list (string * V) :=
  match d with
  | [] => []
  | (k', v) :: d' =>
      if String.eqb k' k then dict_remove d' k else (k', v) :: dict_remove d' k
  end.

(** [os.makedirs(path)], called for a path that does not exist *)
Definition os_makedirs (path : string) : M unit :=
  if String.eqb path ""
  then raise (LibraryError "FileNotFoundError"
                "[Errno 2] No such file or directory: ''")
  else fun w =>
    (Return tt,
     {| events := events w ++ [EvMakedirs path];
        files := files w; dirs := dirs w ++ [path] |}).

(** [with open(path, 'wb') as f: ...]: the file holds what was written
    when the block is left, normally or not. *)
Definition write_file (path : string) (content : bytes) : M unit :=
  fun w =>
    (Return tt,
     {| events := events w ++ [EvWrite path content];
        files := dict_set (files w) path content; dirs := dirs w |}).

(** [os.remove(path)] *)
Definition os_remove (path : string) : M unit :=
  fun w =>
    if dict_mem (files w) path
    then (Return tt,
          {| events := events w ++ [EvRemove path];
             files := dict_remove (files w) path; dirs := dirs w |})
    else (Raise (LibraryError "FileNotFoundError"
                   ("[Errno 2] No such file or directory: " ++ squote path)), w).

(** [logger.error(msg)] *)
Definition logger_error (msg : string) : M unit := emit (EvLog msg).

(** [r.raise_for_status()] *)
Definition raise_for_status (r : Response) : M unit :=
  if ((400 <=? status_code r) && (status_code r <? 600))%Z
  then raise (LibraryError "HTTPError" (http_error_msg r))
  else ret tt.

(** What the endpoint returns on success. *)
Record SwapReply := {
  success : bool;
  image_url : string;
  original_url : JSON
}.

(** What the client receives. *)
Inductive HttpReply :=
| Reply200 (body : SwapReply)
| ReplyError (status : Z) (detail : string).

Section Endpoint.
Variable cfg : Config.
Variable env : Env.

(** [random.randint(lo, hi)] *)
Definition randint (lo hi : Z) : Z := (lo + entropy env mod (hi - lo + 1))%Z.

Definition generate_filename (ext : string) : string :=
  "faceswap_" ++ now_strftime env ++ "_" ++ Z_to_string (randint 1000 9999)
  ++ "." ++ ext.

Definition download_image (url : JSON) (output_path : string)
  : M (string * string) :=
  r <- requests_call env (GET url [] true) ;;
  raise_for_status r ;;;
  (fun w => if negb (path_exists output_path w)
            then os_makedirs output_path w else (Return tt, w)) ;;;
  let filename := generate_filename "jpg" in
  let path := os_path_join output_path filename in
  write_file path (List.concat (body_chunks r)) ;;;
  match body_error r with
  | Some e => raise e
  | None => ret (filename, path)
  end.

Definition upload_to_cos (region secret_id secret_key bucket : option string)
  (file_name base_path : string) : M string :=
  let local_path := os_path_join base_path file_name in
  let call := {| Region := region; SecretId := secret_id;
                 SecretKey := secret_key; Bucket := bucket;
                 LocalFilePath := local_path; Key := file_name |} in
  resp <- (fun w =>
             (cos_upload_file env call (dict_lookup (files w) local_path),
              {| events := events w ++ [EvCosUpload call];
                 files := files w; dirs := dirs w |})) ;;
  if dict_mem resp "ETag"
  then ret ("https://" ++ fmt_opt bucket ++ ".cos." ++ fmt_opt region
            ++ ".myqcloud.com/" ++ file_name)
  else raise (Exception "上传失败").

(** The block under [try:] in [face_swap]. *)
Definition face_swap_try (source_data target_data : bytes) : M SwapReply :=
  if negb (FaceSwapService._validate_image source_data)
     || negb (FaceSwapService._validate_image target_data)
  then raise (HTTPException 400 "图片格式不支持")
  else
    job_id <- FaceSwapService.create_face_swap_job cfg env
                source_data target_data ;;
    result_url <- FaceSwapService.get_face_swap_result env job_id 30 2 ;;
    fp <- download_image result_url (image_output_path cfg) ;;
    let '(filename, path) := fp in
    cos_url <- upload_to_cos (region cfg) (secret_id cfg) (secret_key cfg)
                 (bucket cfg) filename (image_output_path cfg) ;;
    os_remove path ;;;
    ret {| success := true; image_url := cos_url;
           original_url := result_url |}.

Definition face_swap (source_data target_data : bytes) : M SwapReply :=
  try_except
    (face_swap_try source_data target_data)
    (fun e =>
       logger_error (exn_str e) ;;;
       raise (HTTPException 500 ("处理失败: " ++ exn_str e))).

(** How the framework answers an exception that leaves the route. *)
Definition reply_of_exn (e : exn) : HttpReply :=
  match e with
  | HTTPException c d => ReplyError c d
  | _ => ReplyError 500 "Internal Server Error"
  end.

(** [POST /beartAI/face-swap]: the dependency [verify_auth_token] runs
    first, outside the handler's [try]. *)
Definition post_face_swap (authorization : option string)
  (source_image target_image : bytes) : World -> HttpReply * World :=
  fun w =>
    match verify_auth_token cfg authorization with
    | Raise e => (reply_of_exn e, w)
    | Return auth_token =>
        match face_swap source_image target_image w with
        | (Return body, w') => (Reply200 body, w')
        | (Raise e, w') => (reply_of_exn e, w')
        end
    end.

End Endpoint.

(** ** Sample configurations, replies and environments *)

Definition cfg0 : Config :=
  {| REGION := Some "ap-shanghai"; SECRET_ID := Some "id";
     SECRET_KEY := Some "key"; BUCKET := Some "pics-1250000000";
     IMAGE_OUTPUT_PATH := None; PRODUCT_SERIAL := Some "serial";
     VALID_TOKENS := None |}.

Definition world0 : World := {| events := []; files := []; dirs := [] |}.

(** A vendor reply with a JSON body. *)
Definition json_reply (status : Z) (raw : string) (body : JSON) : Response :=
  {| status_code := status; text := raw; json := Return body;
     http_error_msg := Z_to_string status ++ " Error";
     body_chunks := []; body_error := None |}.

(** A reply whose body is not JSON. *)
Definition text_reply (status : Z) (raw : string) : Response :=
  {| status_code := status; text := raw;
     json := Raise (LibraryError "JSONDecodeError"
                      "Expecting value: line 1 column 1 (char 0)");
     http_error_msg := Z_to_string status ++ " Error";
     body_chunks := []; body_error := None |}.

(** A reply that carries a file. *)
Definition file_reply (chunks : list bytes) : Response :=
  {| status_code := 200; text := "";
     json := Raise (LibraryError "JSONDecodeError"
                      "Expecting value: line 1 column 1 (char 0)");
     http_error_msg := ""; body_chunks := chunks; body_error := None |}.

Definition created (job_id : string) : JSON :=
  JObj [("code", JInt 100000); ("result", JObj [("job_id", JStr job_id)])].

Definition processing : JSON := JObj [("code", JInt 300001)].

Definition finished (output : list JSON) : JSON :=
  JObj [("code", JInt 100000); ("result", JObj [("output", JArr output)])].

Definition quoted (s : string) : string := dq ++ s ++ dq.

(** The vendor's replies of the samples, each with its raw text. *)
Definition reply_created : Response :=
  json_reply 200
    ("{" ++ quoted "code" ++ ": 100000, " ++ quoted "result" ++ ": {"
     ++ quoted "job_id" ++ ": " ++ quoted "J1" ++ "}}")
    (created "J1").

Definition reply_processing : Response :=
  json_reply 200 ("{" ++ quoted "code" ++ ": 300001}") processing.

Definition reply_finished : Response :=
  json_reply 200
    ("{" ++ quoted "code" ++ ": 100000, " ++ quoted "result" ++ ": {"
     ++ quoted "output" ++ ": [" ++ quoted "https://vendor/out.jpg" ++ "]}}")
    (finished [JStr "https://vendor/out.jpg"]).

Definition reply_finished_empty : Response :=
  json_reply 200
    ("{" ++ quoted "code" ++ ": 100000, " ++ quoted "result" ++ ": {"
     ++ quoted "output" ++ ": []}}")
    (finished []).

Definition reply_unknown_code : Response :=
  json_reply 200 ("{" ++ quoted "code" ++ ": 500000}")
    (JObj [("code", JInt 500000)]).

Definition reply_code_only : Response :=
  json_reply 200 ("{" ++ quoted "code" ++ ": 100000}")
    (JObj [("code", JInt 100000)]).

Definition reply_html : Response := text_reply 200 "<html>busy</html>".

Definition reply_bad_gateway : Response := text_reply 502 "Bad Gateway".

(** The text of the scalars in an f-string; the samples format nothing
    else. *)
Definition format_scalar (v : JSON) : string :=
  match v with
  | JStr s => s
  | JInt z => Z_to_string z
  | JNull => "None"
  | JBool true => "True"
  | JBool false => "False"
  | _ => ""
  end.

(** An environment that answers the successive requests from a list and
    ends every later one with a connection error; the storage provider
    answers [cos]. *)
Definition scripted (replies : list Response)
  (cos : Result (list (string * string))) : Env :=
  {| http := fun n _ =>
       match nth_error replies n with
       | Some r => Return r
       | None => Raise (LibraryError "ConnectionError" "connection refused")
       end;
     cos_upload_file := fun _ _ => cos;
     now_strftime := "20240102030405";
     entropy := 234;
     format_value := format_scalar |}.

Definition jpeg_sample : bytes := [xff; xd8; xff; xe0; x00; x10].
Definition png_sample : bytes := (sig_png ++ [x00; x00])%list.
Definition junk_sample : bytes := b_ "hello world!".

(** ** Vocabulary of the statements *)

(** The world after further events that leave the disk as it is. *)
Definition advance (w : World) (evs : list Event) : World :=
  {| events := events w ++ evs; files := files w; dirs := dirs w |}.

(** [resp.json().get("code")] *)
Definition vendor_code (resp : Response) : Result JSON :=
  match json resp with
  | Return data => py_get data "code"
  | Raise e => Raise e
  end.

(** The body is a JSON object whose code compares equal to [n]. *)
Definition has_code (resp : Response) (n : Z) : Prop :=
  exists c, vendor_code resp = Return c /\ py_eq_int c n = true.

(** The body is a JSON object whose code is none of [ns]. *)
Definition has_code_outside (resp : Response) (ns : list Z) : Prop :=
  exists c, vendor_code resp = Return c
            /\ forall n, In n ns -> py_eq_int c n = false.

(** [resp.json()["result"][k]] *)
Definition result_field (resp : Response) (k : string) : Result JSON :=
  match json resp with
  | Return data =>
      match getitem_str data "result" with
      | Return result => getitem_str result k
      | Raise e => Raise e
      end
  | Raise e => Raise e
  end.

(** [resp.json()["result"]["output"][0]] *)
Definition first_output (resp : Response) : Result JSON :=
  match result_field resp "output" with
  | Return output => getitem_0 output
  | Raise e => Raise e
  end.

Definition create_job_url : string :=
  "https://api.beart.ai/api/beart/face-swap/create-job".

Definition create_request (cfg : Config) (source_image target_image : bytes)
  : Request :=
  POST create_job_url
    (dict_set FaceSwapService.API_HEADERS "product-serial" (product_serial cfg))
    (FaceSwapService.create_job_files source_image target_image).

Definition poll_request (env : Env) (job_id : JSON) : Request :=
  GET (JStr (FaceSwapService.get_job_url env job_id))
    FaceSwapService.API_HEADERS false.

(** What the network answers to the [k]-th poll of a loop started in [w]. *)
Definition poll_answer (env : Env) (w : World) (job_id : JSON) (k : nat)
  : Result Response :=
  http env (List.length (requests_made (events w)) + k) (poll_request env job_id).

(** HTTP 200 with vendor code 300001: the job is still running. *)
Definition still_processing (a : Result Response) : Prop :=
  exists resp, a = Return resp /\ status_code resp = 200%Z
               /\ has_code resp 300001.

(** The events of [k] polls that each found the job still running. *)
Fixpoint poll_rounds (req : Request) (interval : Z) (k : nat) : list Event :=
  match k with
  | O => []
  | S k' => EvRequest req :: EvSleep interval :: poll_rounds req interval k'
  end.

Definition poll_failed : exn := Exception "换脸结果获取失败".
Definition retries_exceeded : exn := Exception "超过最大重试次数".
Definition upload_failed : exn := Exception "上传失败".
Definition create_failed (raw : string) : exn :=
  Exception ("BeArt 任务创建失败: " ++ raw).

Definition reply_status (r : HttpReply) : Z :=
  match r with
  | Reply200 _ => 200
  | ReplyError status _ => status
  end.

Definition is_remove (e : Event) : bool :=
  match e with EvRemove _ => true | _ => false end.

Definition is_write (e : Event) : bool :=
  match e with EvWrite _ _ => true | _ => false end.

(** The requests of [w'] that [w] had not made yet. *)
Definition new_requests (w w' : World) : list Event :=
  skipn (List.length (requests_made (events w))) (requests_made (events w')).

(** [c] occurs in [s]. *)
Fixpoint has_char (c : ascii) (s : string) : Prop :=
  match s with
  | EmptyString => False
  | String c' s' => c' = c \/ has_char c s'
  end.

(** A vendor that never finishes the job. *)
Definition never_done : Env :=
  scripted (repeat reply_processing 30) (Return []).

(** A vendor that finishes the job at the third poll. *)
Definition done_at_third_poll : Env :=
  scripted [reply_processing; reply_processing; reply_finished] (Return []).

(** A vendor that answers the first poll with an unknown code. *)
Definition unknown_code : Env :=
  scripted [reply_unknown_code] (Return []).

(** A vendor that reports success with an empty output list. *)
Definition done_without_output : Env :=
  scripted [reply_finished_empty] (Return []).

(** Events that neither write nor remove a file. *)
Definition keeps_files (e : Event) : bool :=
  negb (is_write e) && negb (is_remove e).

Definition quiet (evs : list Event) : Prop := forallb keeps_files evs = true.

(** A run in which every step succeeds, and one whose upload is answered
    without an entity tag. *)
Definition happy_replies : list Response :=
  [reply_created; reply_finished; file_reply [jpeg_sample]].

Definition happy : Env := scripted happy_replies (Return [("ETag", "abc")]).

Definition upload_refused : Env :=
  scripted happy_replies (Return [("Server", "tencent-cos")]).

(** The seconds spent in [time.sleep] among some events. *)
Fixpoint slept (evs : list Event) : Z :=
  match evs with
  | [] => 0
  | EvSleep seconds :: rest => seconds + slept rest
  | _ :: rest => slept rest
  end.

(** Decimal digits. *)
Definition is_digit (c : ascii) : bool :=
  let n := nat_of_ascii c in Nat.leb 48 n && Nat.leb n 57.

Fixpoint all_digits (s : string) : bool :=
  match s with
  | EmptyString => true
  | String c s' => is_digit c && all_digits s'
  end.

(** Configurations whose token variable is empty, or written with a
    space after the comma. *)
Definition cfg_no_tokens : Config :=
  {| REGION := Some "ap-shanghai"; SECRET_ID := Some "id";
     SECRET_KEY := Some "key"; BUCKET := Some "pics-1250000000";
     IMAGE_OUTPUT_PATH := None; PRODUCT_SERIAL := Some "serial";
     VALID_TOKENS := Some "" |}.

Definition cfg_spaced_tokens : Config :=
  {| REGION := Some "ap-shanghai"; SECRET_ID := Some "id";
     SECRET_KEY := Some "key"; BUCKET := Some "pics-1250000000";
     IMAGE_OUTPUT_PATH := None; PRODUCT_SERIAL := Some "serial";
     VALID_TOKENS := Some "alpha, beta" |}.

(** A vendor whose body is a JSON list. *)
Definition reply_list_body : Response := json_reply 200 "[]" (JArr []).

Definition list_on_create : Env := scripted [reply_list_body] (Return []).

Definition list_on_second_poll : Env :=
  scripted [reply_processing; reply_list_body] (Return []).

(** A download refused with 404, and one whose stream breaks after its
    first chunk. *)
Definition reply_not_found : Response := text_reply 404 "Not Found".


(** * Properties *)

(** ** The format sniffer *)

Lemma bytes_eqb_eq (a b : bytes) : bytes_eqb a b = true <-> a = b.
Proof.
  revert b; induction a as [|x a IH]; intros [|y b]; simpl;
    try (split; discriminate); [split; reflexivity|].
  rewrite andb_true_iff, IH. split.
  - intros [H ->]. apply byte_dec_bl in H. now subst.
  - intros H; injection H as -> ->. split; [now apply byte_dec_lb | reflexivity].
Qed.

Lemma startswith_firstn (data pre : bytes) :
  startswith data pre = true <-> firstn (List.length pre) data = pre.
Proof.
  revert data; induction pre as [|p pre IH]; intros data; simpl;
    [split; reflexivity|].
  destruct data as [|d data]; [split; discriminate|].
  rewrite andb_true_iff, IH. split.
  - intros [H ->]. apply byte_dec_bl in H. now subst.
  - intros H; injection H as -> H. rewrite H.
    split; [now apply byte_dec_lb | reflexivity].
Qed.

Lemma firstn_has_bytes (data pre : bytes) :
  firstn (List.length pre) data = pre <-> has_bytes data 0 pre.
Proof.
  unfold has_bytes. revert data; induction pre as [|p pre IH]; intros data; simpl.
  - split; [intros _ [|i] b; discriminate | reflexivity].
  - destruct data as [|d data].
    + split; [discriminate|]. intros H. specialize (H 0%nat p eq_refl). discriminate.
    + split.
      * intros H; injection H as -> H. pose proof (proj1 (IH data) H) as H'.
        intros [|i] b Hb; [exact Hb | exact (H' i b Hb)].
      * intros H. pose proof (H 0%nat p eq_refl) as H0. simpl in H0.
        injection H0 as ->. f_equal. apply (proj2 (IH data)).
        intros i b Hb. exact (H (S i) b Hb).
Qed.

Lemma startswith_has_bytes (data pre : bytes) :
  startswith data pre = true <-> has_bytes data 0 pre.
Proof. rewrite startswith_firstn. apply firstn_has_bytes. Qed.

Lemma has_bytes_skipn (data sig : bytes) (off : nat) :
  has_bytes data off sig <-> has_bytes (skipn off data) 0 sig.
Proof.
  unfold has_bytes. split; intros H i b Hb.
  - rewrite nth_error_skipn. now apply H.
  - specialize (H i b Hb). now rewrite nth_error_skipn in H.
Qed.

Lemma slice_has_bytes (data sig : bytes) (lo hi : nat) :
  List.length sig = (hi - lo)%nat ->
  bytes_eqb (slice lo hi data) sig = true <-> has_bytes data lo sig.
Proof.
  intros Hlen. unfold slice. rewrite bytes_eqb_eq, <- Hlen.
  rewrite firstn_has_bytes. symmetry. apply has_bytes_skipn.
Qed.

Lemma startswith_cons (data : bytes) (p : byte) (pre : bytes) :
  startswith data (p :: pre) = true ->
  exists rest, data = p :: rest /\ startswith rest pre = true.
Proof.
  destruct data as [|d data]; simpl; [discriminate|].
  rewrite andb_true_iff. intros [H Hr]. apply byte_dec_bl in H. subst.
  now exists data.
Qed.

Lemma validate_image_recognized (buf : bytes) :
  FaceSwapService._validate_image buf = true <-> recognized buf.
Proof.
  unfold FaceSwapService._validate_image, recognized. cbn [existsb].
  rewrite !orb_true_iff, andb_true_iff, !startswith_has_bytes.
  rewrite (slice_has_bytes (firstn 12 buf) sig_webp 8 12 eq_refl).
  split.
  - intros [H|[H|[H|[H|[[H1 H2]|[H|H]]]]]]; try discriminate.
    + now exists JPEG.
    + now exists PNG.
    + now exists GIF87a.
    + now exists GIF89a.
    + exists WEBP. now split.
    + now exists BMP.
  - intros [[] H]; cbn in H; tauto.
Qed.

Ltac head_differs sig :=
  match goal with
  | |- context [startswith (?b :: ?r) sig] =>
      change (startswith (b :: r) sig) with false
  end.

Lemma mime_type_of_signature (buf : bytes) (f : ImageFormat) :
  matches_signature buf f -> FaceSwapService._get_mime_type buf = mime_of f.
Proof.
  unfold matches_signature, FaceSwapService._get_mime_type.
  generalize (firstn 12 buf). intros h H.
  destruct f; cbn [mime_of].
  - apply startswith_has_bytes in H.
    change (startswith h sig_jpeg = true) in H. now rewrite H.
  - apply startswith_has_bytes in H.
    change (startswith h sig_png = true) in H.
    destruct (startswith_cons _ _ _ H) as (rest & -> & _).
    head_differs sig_jpeg. now rewrite H.
  - apply startswith_has_bytes in H.
    change (startswith h sig_gif87a = true) in H.
    destruct (startswith_cons _ _ _ H) as (rest & -> & _).
    head_differs sig_jpeg. head_differs sig_png. now rewrite H.
  - apply startswith_has_bytes in H.
    change (startswith h sig_gif89a = true) in H.
    destruct (startswith_cons _ _ _ H) as (rest & -> & _).
    head_differs sig_jpeg. head_differs sig_png.
    rewrite H, orb_true_r. reflexivity.
  - destruct H as [H1 H2].
    apply startswith_has_bytes in H1.
    apply (slice_has_bytes h sig_webp 8 12 eq_refl) in H2.
    change (startswith h sig_riff = true) in H1.
    destruct (startswith_cons _ _ _ H1) as (rest & -> & _).
    head_differs sig_jpeg. head_differs sig_png.
    head_differs sig_gif87a. head_differs sig_gif89a.
    now rewrite H1, H2.
  - apply startswith_has_bytes in H.
    change (startswith h sig_bm = true) in H.
    destruct (startswith_cons _ _ _ H) as (rest & -> & _).
    head_differs sig_jpeg. head_differs sig_png.
    head_differs sig_gif87a. head_differs sig_gif89a.
    head_differs sig_riff. now rewrite H.
Qed.

Lemma mime_type_default (buf : bytes) :
  FaceSwapService._validate_image buf = false ->
  FaceSwapService._get_mime_type buf = "image/jpeg".
Proof.
  unfold FaceSwapService._validate_image, FaceSwapService._get_mime_type.
  cbn [existsb]. rewrite !orb_false_iff.
  intros (_ & Hpng & H87 & H89 & Hwebp & Hbm & _).
  rewrite Hpng, H87, H89, Hwebp, Hbm.
  now destruct (startswith (firstn 12 buf) sig_jpeg).
Qed.

(** C4.  Format validation accepts a buffer exactly when its 12-byte header
    carries one of the six signatures (JPEG, PNG, GIF87a, GIF89a, RIFF/WEBP,
    BM); MIME resolution, a total function, gives a recognised buffer the
    MIME string of its signature and every other buffer ["image/jpeg"]. *)
Theorem sniffer_accepts_exactly_the_signatures (buf : bytes) :
  (FaceSwapService._validate_image buf = true <-> recognized buf)
  /\ (forall f, matches_signature buf f ->
                FaceSwapService._get_mime_type buf = mime_of f)
  /\ (~ recognized buf -> FaceSwapService._get_mime_type buf = "image/jpeg").
Proof.
  split; [apply validate_image_recognized|].
  split; [intros f; apply mime_type_of_signature|].
  intros Hnot. apply mime_type_default.
  destruct (FaceSwapService._validate_image buf) eqn:E; [|reflexivity].
  apply validate_image_recognized in E. contradiction.
Qed.

Lemma png_sample_matches : matches_signature png_sample PNG.
Proof.
  cbn. intros i b.
  do 8 (destruct i as [|i]; [intros [= <-]; reflexivity|]).
  destruct i; discriminate.
Qed.

Lemma junk_sample_not_recognized : ~ recognized junk_sample.
Proof.
  intros H. apply validate_image_recognized in H. discriminate H.
Qed.

Lemma sniffer_accepts_exactly_the_signatures_witness :
  recognized png_sample
  /\ FaceSwapService._validate_image png_sample = true
  /\ FaceSwapService._get_mime_type png_sample = "image/png"
  /\ FaceSwapService._get_mime_type junk_sample = "image/jpeg".
Proof.
  destruct (sniffer_accepts_exactly_the_signatures png_sample) as (Hv & Hm & _).
  destruct (sniffer_accepts_exactly_the_signatures junk_sample) as (_ & _ & Hd).
  assert (Hr : recognized png_sample) by (exists PNG; exact png_sample_matches).
  split; [exact Hr|].
  split; [exact (proj2 Hv Hr)|].
  split; [exact (Hm PNG png_sample_matches)|].
  exact (Hd junk_sample_not_recognized).
Defined.

(** ** The bearer-token check *)

Lemma partition_at_first_sep (sep : ascii) (s t : string) :
  ~ has_char sep s ->
  partition sep (s ++ String sep t) = (s, String sep EmptyString, t).
Proof.
  induction s as [|c s IH]; simpl; intros Hno.
  - now rewrite Ascii.eqb_refl.
  - destruct (Ascii.eqb c sep) eqn:E.
    + apply Ascii.eqb_eq in E. tauto.
    + rewrite IH by tauto. reflexivity.
Qed.

Lemma lower_char_space (c : ascii) : c = " "%char -> lower_char c = " "%char.
Proof. intros ->. reflexivity. Qed.

Lemma lower_keeps_space (s : string) :
  has_char " " s -> has_char " " (lower s).
Proof.
  induction s as [|c s IH]; simpl; [tauto|].
  intros [H|H]; [left; now apply lower_char_space | right; now apply IH].
Qed.

Lemma str_in_In (tok : string) (tokens : list string) :
  str_in tok tokens = true <-> In tok tokens.
Proof.
  unfold str_in. rewrite existsb_exists. split.
  - intros (x & Hx & E). apply String.eqb_eq in E. now subst.
  - intros H. exists tok. split; [exact H | apply String.eqb_refl].
Qed.

Lemma append_nonempty (s t : string) : s <> "" -> s ++ t <> "".
Proof. destruct s; [congruence | discriminate]. Qed.

(** C10.  The scheme is compared after lowering its letters: a header made
    of any spelling of "bearer", one space and a token of the allow-list
    passes the check, which returns the token. *)
Theorem bearer_scheme_any_case (cfg : Config) (scheme token : string) :
  lower scheme = "bearer" ->
  In token (valid_tokens cfg) ->
  verify_auth_token cfg (Some (scheme ++ " " ++ token)) = Return token.
Proof.
  intros Hs Ht. unfold verify_auth_token.
  assert (Hno : ~ has_char " " scheme).
  { intros H. apply lower_keeps_space in H. rewrite Hs in H.
    cbn in H. repeat (destruct H as [H|H]; [discriminate H|]). exact H. }
  destruct (scheme ++ " " ++ token) as [|c rest] eqn:E.
  - destruct scheme; [discriminate Hs | discriminate E].
  - rewrite <- E. change (scheme ++ " " ++ token) with (scheme ++ String " " token).
    rewrite (partition_at_first_sep " " scheme token Hno).
    rewrite Hs. apply str_in_In in Ht. rewrite Ht. reflexivity.
Qed.

Lemma bearer_scheme_any_case_witness :
  verify_auth_token cfg0 (Some "BEARER token2") = Return "token2"
  /\ verify_auth_token cfg0 (Some "bearer token1") = Return "token1"
  /\ verify_auth_token cfg0 (Some "Bearer token1") = Return "token1".
Proof.
  split; [|split].
  - apply (bearer_scheme_any_case cfg0 "BEARER" "token2");
      [reflexivity | cbn; tauto].
  - apply (bearer_scheme_any_case cfg0 "bearer" "token1");
      [reflexivity | cbn; tauto].
  - apply (bearer_scheme_any_case cfg0 "Bearer" "token1");
      [reflexivity | cbn; tauto].
Defined.

(** C3 as worded fails at two headers.  "bearer token1" has a scheme
    other than "Bearer" and yet passes, so a scheme other than "Bearer"
    is not always answered 403; and the empty header, whose scheme is not
    "Bearer" either, is answered 401. *)
Lemma scheme_other_than_Bearer_not_always_403 :
  (partition " " "bearer token1" = ("bearer", " ", "token1")
   /\ "bearer" <> "Bearer"
   /\ verify_auth_token cfg0 (Some "bearer token1") = Return "token1")
  /\ verify_auth_token cfg0 (Some "")
     = Raise (HTTPException 401 "Missing Authorization Header")
  /\ ~ (forall cfg h scheme sep token,
          partition " " h = (scheme, sep, token) ->
          scheme <> "Bearer" \/ ~ In token (valid_tokens cfg) ->
          exists d, verify_auth_token cfg (Some h) = Raise (HTTPException 403 d)).
Proof.
  split; [|split].
  - split; [reflexivity|]. split; [discriminate | reflexivity].
  - reflexivity.
  - intros H.
    destruct (H cfg0 "bearer token1" "bearer" " " "token1" eq_refl) as [d Hd].
    + left. discriminate.
    + discriminate Hd.
Qed.

(** C3, amended.  A request without the header, or with an empty one, is
    answered 401.  For a header that is not empty, split at its first
    space into scheme and token: if the scheme lowered is not "bearer" or
    the token is not in the allow-list the answer is 403; if the scheme
    lowered is "bearer" and the token is in the allow-list the check
    succeeds and hands the token on. *)
Theorem verify_auth_token_outcomes (cfg : Config) (authorization : option string) :
  (authorization = None \/ authorization = Some "" ->
   verify_auth_token cfg authorization
   = Raise (HTTPException 401 "Missing Authorization Header"))
  /\ (forall h scheme sep token,
        authorization = Some h -> h <> "" ->
        partition " " h = (scheme, sep, token) ->
        (lower scheme <> "bearer" \/ ~ In token (valid_tokens cfg) ->
         verify_auth_token cfg authorization
         = Raise (HTTPException 403 "Invalid or Expired Token"))
        /\ (lower scheme = "bearer" /\ In token (valid_tokens cfg) ->
            verify_auth_token cfg authorization = Return token)).
Proof.
  split.
  - intros [-> | ->]; reflexivity.
  - intros h scheme sep token -> Hne Hp. unfold verify_auth_token.
    destruct h as [|c h]; [congruence|]. rewrite Hp. split.
    + intros [Hs | Ht].
      * apply String.eqb_neq in Hs. now rewrite Hs.
      * destruct (str_in token (valid_tokens cfg)) eqn:E.
        -- apply str_in_In in E. contradiction.
        -- now rewrite orb_true_r.
    + intros [Hs Ht]. apply str_in_In in Ht. rewrite Hs, Ht. reflexivity.
Qed.

Lemma verify_auth_token_outcomes_witness :
  verify_auth_token cfg0 None
  = Raise (HTTPException 401 "Missing Authorization Header")
  /\ verify_auth_token cfg0 (Some "Basic token1")
     = Raise (HTTPException 403 "Invalid or Expired Token")
  /\ verify_auth_token cfg0 (Some "Bearer nobody")
     = Raise (HTTPException 403 "Invalid or Expired Token")
  /\ verify_auth_token cfg0 (Some "Bearer token1") = Return "token1".
Proof.
  split; [|split; [|split]].
  - apply (proj1 (verify_auth_token_outcomes cfg0 None)). now left.
  - apply (proj2 (verify_auth_token_outcomes cfg0 (Some "Basic token1"))
             "Basic token1" "Basic" " " "token1" eq_refl);
      [discriminate | reflexivity | left; discriminate].
  - apply (proj2 (verify_auth_token_outcomes cfg0 (Some "Bearer nobody"))
             "Bearer nobody" "Bearer" " " "nobody" eq_refl);
      [discriminate | reflexivity |].
    right. cbn. intros [H|[H|[]]]; discriminate H.
  - apply (proj2 (verify_auth_token_outcomes cfg0 (Some "Bearer token1"))
             "Bearer token1" "Bearer" " " "token1" eq_refl);
      [discriminate | reflexivity |].
    split; [reflexivity | cbn; tauto].
Defined.

(** ** The storage publisher *)

Lemma dict_mem_In {V : Type} (d : list (string * V)) (k : string) :
  dict_mem d k = true <-> exists v, In (k, v) d.
Proof.
  unfold dict_mem. induction d as [|[k' v'] d IH]; simpl.
  - split; [discriminate | intros [_ []]].
  - destruct (String.eqb k' k) eqn:E.
    + apply String.eqb_eq in E. subst. split; [|reflexivity].
      intros _. exists v'. now left.
    + rewrite IH. apply String.eqb_neq in E.
      split; intros [v H]; exists v; [now right|].
      destruct H as [H|H]; [congruence | exact H].
Qed.

Ltac unfold_monad :=
  unfold logger_error, bind, ret, raise, lift, emit, try_except, time_sleep,
    requests_call in *.

(** C7.  When the provider answers an upload of key [k] to bucket [b] in
    region [r], the publisher returns
    [https://<b>.cos.<r>.myqcloud.com/<k>] exactly when the answer has an
    ['ETag'] entry, and fails with the upload-failure condition when it
    has none. *)
Theorem upload_to_cos_url_iff_etag (env : Env) (b r k base : string)
  (sid skey : option string) (w : World) (resp : list (string * string)) :
  cos_upload_file env
    {| Region := Some r; SecretId := sid; SecretKey := skey; Bucket := Some b;
       LocalFilePath := os_path_join base k; Key := k |}
    (dict_lookup (files w) (os_path_join base k)) = Return resp ->
  let out := fst (upload_to_cos env (Some r) sid skey (Some b) k base w) in
  (out = Return ("https://" ++ b ++ ".cos." ++ r ++ ".myqcloud.com/" ++ k)
   <-> exists v, In ("ETag", v) resp)
  /\ ((~ exists v, In ("ETag", v) resp) -> out = Raise upload_failed).
Proof.
  intros Hresp out. subst out. unfold upload_to_cos. unfold_monad.
  cbn [fst]. rewrite Hresp. rewrite <- dict_mem_In.
  destruct (dict_mem resp "ETag"); cbn.
  - split; [split; reflexivity | intros H; now elim H].
  - split; [split; discriminate | reflexivity].
Qed.

Lemma upload_to_cos_url_iff_etag_witness :
  fst (upload_to_cos (scripted [] (Return [("ETag", "abc")]))
         (Some "ap-shanghai") None None (Some "pics") "a.jpg" "./output" world0)
  = Return "https://pics.cos.ap-shanghai.myqcloud.com/a.jpg"
  /\ fst (upload_to_cos (scripted [] (Return [("Server", "tencent-cos")]))
            (Some "ap-shanghai") None None (Some "pics") "a.jpg" "./output" world0)
     = Raise upload_failed.
Proof.
  split.
  - apply (proj1 (upload_to_cos_url_iff_etag
                    (scripted [] (Return [("ETag", "abc")]))
                    "pics" "ap-shanghai" "a.jpg" "./output" None None world0
                    (resp := [("ETag", "abc")]) eq_refl)).
    exists "abc". now left.
  - apply (proj2 (upload_to_cos_url_iff_etag
                    (scripted [] (Return [("Server", "tencent-cos")]))
                    "pics" "ap-shanghai" "a.jpg" "./output" None None world0
                    (resp := [("Server", "tencent-cos")]) eq_refl)).
    intros [v [H|[]]]. discriminate H.
Defined.

(** ** The vendor job client: creating a job *)

Lemma create_face_swap_job_world (cfg : Config) (env : Env)
  (src tgt : bytes) (w : World) :
  snd (FaceSwapService.create_face_swap_job cfg env src tgt w)
  = advance w [EvRequest (create_request cfg src tgt)].
Proof.
  unfold FaceSwapService.create_face_swap_job. unfold_monad.
  fold create_job_url. fold (create_request cfg src tgt).
  destruct (http env _ (create_request cfg src tgt)) as [resp|e]; [|reflexivity].
  destruct (status_code resp =? 200)%Z; [|reflexivity].
  destruct (json resp) as [data|e]; [|reflexivity].
  destruct (py_get data "code") as [code|e]; [|reflexivity].
  destruct (py_eq_int code 100000); [|reflexivity].
  destruct (getitem_str data "result") as [result|e]; [|reflexivity].
  destruct (getitem_str result "job_id"); reflexivity.
Qed.

(** C6.  Whatever the vendor answers, the create-job call is one multipart
    POST that carries the source image in the field [target_image] and the
    target image in the field [swap_image], each with the MIME type
    resolved from its bytes. *)
Theorem create_job_sends_source_as_target_image (cfg : Config) (env : Env)
  (source_image target_image : bytes) (w : World) :
  exists headers,
    events (snd (FaceSwapService.create_face_swap_job cfg env
                   source_image target_image w))
    = (events w
       ++ [EvRequest
             (POST "https://api.beart.ai/api/beart/face-swap/create-job" headers
                [ ("target_image",
                    {| part_filename := "target.jpg";
                       part_content := source_image;
                       part_content_type :=
                         FaceSwapService._get_mime_type source_image |});
                  ("swap_image",
                    {| part_filename := "source.jpg";
                       part_content := target_image;
                       part_content_type :=
                         FaceSwapService._get_mime_type target_image |}) ])])%list.
Proof.
  rewrite create_face_swap_job_world. eexists. reflexivity.
Qed.

(** Two responses at which C5 as worded fails: HTTP 200 with code 100000
    but no job id returns nothing and raises a [KeyError]; HTTP 200 with a
    body that is not JSON fails with the decoder's error, not with the
    upstream-error condition. *)
Lemma create_job_bare_success_and_html_body :
  (let resp := reply_code_only in
   status_code resp = 200%Z /\ has_code resp 100000
   /\ fst (FaceSwapService.create_face_swap_job cfg0
             (scripted [resp] (Return [])) jpeg_sample png_sample world0)
      = Raise (KeyError "'result'"))
  /\ (let resp := reply_html in
      ~ has_code resp 100000
      /\ fst (FaceSwapService.create_face_swap_job cfg0
                (scripted [resp] (Return [])) jpeg_sample png_sample world0)
         <> Raise (create_failed (text resp))).
Proof.
  split; cbn zeta.
  - split; [reflexivity|]. split; [|reflexivity].
    exists (JInt 100000). split; reflexivity.
  - split; [|discriminate].
    intros (c & Hc & _). discriminate Hc.
Qed.

(** C5, amended.  [create_face_swap_job] returns the job id exactly when
    the response has HTTP 200, vendor code 100000 and a [result] object
    holding [job_id]; when the status is not 200, or the body is a JSON
    object whose code is not 100000, it fails with the upstream-error
    condition, whose message ends with the raw response body. *)
Theorem create_job_outcomes (cfg : Config) (env : Env)
  (source_image target_image : bytes) (w : World) (resp : Response) :
  http env (List.length (requests_made (events w)))
    (create_request cfg source_image target_image) = Return resp ->
  let out := fst (FaceSwapService.create_face_swap_job cfg env
                    source_image target_image w) in
  (forall job_id,
      out = Return job_id <->
      status_code resp = 200%Z /\ has_code resp 100000
      /\ result_field resp "job_id" = Return job_id)
  /\ (status_code resp <> 200%Z \/ has_code_outside resp [100000%Z] ->
      out = Raise (Exception ("BeArt 任务创建失败: " ++ text resp))).
Proof.
  intros Hresp out. subst out.
  unfold FaceSwapService.create_face_swap_job. unfold_monad.
  fold create_job_url. fold (create_request cfg source_image target_image).
  rewrite Hresp. unfold has_code, has_code_outside, vendor_code, result_field.
  destruct (status_code resp =? 200)%Z eqn:Es.
  2:{ apply Z.eqb_neq in Es. cbn. split; [|reflexivity].
      intros v. split; [discriminate | tauto]. }
  apply Z.eqb_eq in Es.
  destruct (json resp) as [data|e]; cbn.
  2:{ split.
      - intros v. split; [discriminate | intros (_ & _ & H); discriminate H].
      - intros [H | (c & H & _)]; [contradiction | discriminate H]. }
  destruct (py_get data "code") as [code|e]; cbn.
  2:{ split.
      - intros v. split; [discriminate | intros (_ & (c & H & _) & _); discriminate H].
      - intros [H | (c & H & _)]; [contradiction | discriminate H]. }
  destruct (py_eq_int code 100000) eqn:Ec; cbn.
  - split.
    + intros v.
      destruct (getitem_str data "result") as [result|e]; cbn.
      * destruct (getitem_str result "job_id") as [j|e]; cbn.
        -- split; [intros [= ->]; repeat split; eauto | intros (_ & _ & H); exact H].
        -- split; [discriminate | intros (_ & _ & H); discriminate H].
      * split; [discriminate | intros (_ & _ & H); discriminate H].
    + intros [H | (c & [= <-] & H)]; [contradiction|].
      rewrite (H 100000%Z) in Ec by (now left). discriminate Ec.
  - split; [|reflexivity].
    intros v. split; [discriminate|].
    intros (_ & (c & [= <-] & H) & _). congruence.
Qed.

Lemma create_job_outcomes_witness :
  fst (FaceSwapService.create_face_swap_job cfg0
         (scripted [reply_created] (Return []))
         jpeg_sample png_sample world0) = Return (JStr "J1")
  /\ fst (FaceSwapService.create_face_swap_job cfg0
            (scripted [reply_bad_gateway] (Return []))
            jpeg_sample png_sample world0)
     = Raise (Exception ("BeArt 任务创建失败: " ++ "Bad Gateway")).
Proof.
  split.
  - apply (proj1 (create_job_outcomes cfg0
                    (scripted [reply_created] (Return []))
                    jpeg_sample png_sample world0 eq_refl)).
    split; [reflexivity|]. split; [|reflexivity].
    exists (JInt 100000). split; reflexivity.
  - apply (proj2 (create_job_outcomes cfg0
                    (scripted [reply_bad_gateway] (Return []))
                    jpeg_sample png_sample world0 eq_refl)).
    left. discriminate.
Defined.

(** ** The vendor job client: polling *)

Lemma py_eq_int_inj (c : JSON) (n m : Z) :
  py_eq_int c n = true -> py_eq_int c m = true -> n = m.
Proof.
  destruct c as [ |b|z|[q|]|s|l|d]; cbn; try discriminate.
  - intros H1 H2. apply Z.eqb_eq in H1, H2. congruence.
  - intros H1 H2. apply Z.eqb_eq in H1, H2. congruence.
  - intros H1 H2. apply Qeq_bool_eq in H1, H2.
    apply inject_Z_injective. now rewrite <- H1, <- H2.
Qed.

Lemma has_code_unique (resp : Response) (n m : Z) :
  has_code resp n -> has_code resp m -> n = m.
Proof.
  intros (c & Hc & Hn) (c' & Hc' & Hm). rewrite Hc in Hc'.
  injection Hc' as <-. exact (py_eq_int_inj c n m Hn Hm).
Qed.

Lemma requests_made_app (a b : list Event) :
  requests_made (a ++ b) = (requests_made a ++ requests_made b)%list.
Proof. apply filter_app. Qed.

Lemma requests_made_poll_rounds (req : Request) (interval : Z) (k : nat) :
  requests_made (poll_rounds req interval k) = repeat (EvRequest req) k.
Proof.
  unfold requests_made. induction k; cbn; [reflexivity | now rewrite IHk].
Qed.

Lemma advance_advance (w : World) (a b : list Event) :
  advance (advance w a) b = advance w (a ++ b).
Proof. unfold advance; cbn. now rewrite app_assoc. Qed.

Lemma still_processing_dec (a : Result Response) :
  still_processing a \/ ~ still_processing a.
Proof.
  unfold still_processing, has_code.
  destruct a as [resp|e].
  2:{ right. intros (r & H & _). discriminate H. }
  destruct (Z.eq_dec (status_code resp) 200) as [Hs|Hs].
  2:{ right. intros (r & [= <-] & H & _). contradiction. }
  destruct (vendor_code resp) as [c|e] eqn:Ec.
  2:{ right. intros (r & [= <-] & _ & c & H & _). congruence. }
  destruct (py_eq_int c 300001) eqn:E.
  - left. exists resp. repeat split; eauto.
  - right. intros (r & [= <-] & _ & c' & H & H'). congruence.
Qed.

Lemma first_exception (P : nat -> Prop) (n : nat) :
  (forall i, P i \/ ~ P i) ->
  (forall i, (i < n)%nat -> P i)
  \/ exists k, (k < n)%nat /\ (forall i, (i < k)%nat -> P i) /\ ~ P k.
Proof.
  intros dec. induction n as [|n IH].
  - left. intros i Hi. lia.
  - destruct IH as [Hall | (k & Hk & Hpre & Hnot)].
    + destruct (dec n) as [Hn | Hn].
      * left. intros i Hi.
        destruct (Nat.eq_dec i n) as [->|]; [exact Hn | apply Hall; lia].
      * right. exists n. repeat split; [lia | exact Hall | exact Hn].
    + right. exists k. repeat split; [lia | exact Hpre | exact Hnot].
Qed.

Lemma advance_nil (w : World) : advance w [] = w.
Proof. destruct w. unfold advance; cbn. now rewrite app_nil_r. Qed.

Section PollLoop.
Variable env : Env.
Variable url : string.
Variable headers : Headers.
Variable interval : Z.
Hypothesis interval_nonneg : (0 <= interval)%Z.

Let req := GET (JStr url) headers false.
Let answer (w : World) (k : nat) : Result Response :=
  http env (List.length (requests_made (events w)) + k) req.
Let loop (n : nat) := FaceSwapService.poll_loop env n url headers interval.

Lemma answer_after_round (w : World) (k : nat) :
  answer (advance w [EvRequest req; EvSleep interval]) k = answer w (S k).
Proof.
  unfold answer. cbn. rewrite requests_made_app, length_app. cbn.
  f_equal. lia.
Qed.

Lemma poll_loop_continue (n : nat) (w : World) :
  still_processing (answer w 0) ->
  loop (S n) w = loop n (advance w [EvRequest req; EvSleep interval]).
Proof.
  intros (resp & Ha & Hs & c & Hc & E). unfold answer in Ha.
  rewrite Nat.add_0_r in Ha. unfold loop. cbn [FaceSwapService.poll_loop].
  unfold_monad. fold req. rewrite Ha, Hs. cbn.
  unfold vendor_code in Hc. destruct (json resp) as [data|e]; [|discriminate Hc].
  rewrite Hc. cbn.
  destruct (py_eq_int c 100000) eqn:E1.
  { pose proof (py_eq_int_inj c _ _ E1 E). discriminate. }
  rewrite E.
  destruct (interval <? 0)%Z eqn:Ei; [apply Z.ltb_lt in Ei; lia|].
  unfold advance. cbn. now rewrite <- app_assoc.
Qed.

Lemma poll_loop_skip (k n : nat) (w : World) :
  (forall i, (i < k)%nat -> still_processing (answer w i)) ->
  loop (k + n) w = loop n (advance w (poll_rounds req interval k)).
Proof.
  revert w; induction k as [|k IH]; intros w Hpre.
  - cbn. now rewrite advance_nil.
  - cbn [Nat.add]. rewrite poll_loop_continue by (apply Hpre; lia).
    rewrite IH.
    + now rewrite advance_advance.
    + intros i Hi. rewrite answer_after_round. apply Hpre. lia.
Qed.

Lemma poll_loop_stop_world (n : nat) (w : World) :
  ~ still_processing (answer w 0) ->
  snd (loop (S n) w) = advance w [EvRequest req].
Proof.
  intros Hnot. unfold loop. cbn [FaceSwapService.poll_loop]. unfold_monad.
  fold req. unfold answer in Hnot. rewrite Nat.add_0_r in Hnot.
  destruct (http env _ req) as [resp|e] eqn:Ha; [|reflexivity].
  destruct (status_code resp =? 200)%Z eqn:Es; [|reflexivity].
  apply Z.eqb_eq in Es.
  destruct (json resp) as [data|e] eqn:Ej; [|reflexivity]. cbn.
  destruct (py_get data "code") as [c|e] eqn:Ec; [|reflexivity]. cbn.
  destruct (py_eq_int c 100000).
  - destruct (getitem_str data "result") as [result|e]; [|reflexivity]. cbn.
    destruct (getitem_str result "output") as [output|e]; reflexivity.
  - destruct (py_eq_int c 300001) eqn:E; [|reflexivity].
    exfalso. apply Hnot. exists resp. repeat split; [exact Es|].
    exists c. unfold vendor_code. rewrite Ej. now split.
Qed.

Lemma poll_loop_stop_success (n : nat) (w : World) (resp : Response) :
  answer w 0 = Return resp ->
  status_code resp = 200%Z -> has_code resp 100000 ->
  fst (loop (S n) w) = first_output resp.
Proof.
  intros Ha Hs (c & Hc & E). unfold answer in Ha. rewrite Nat.add_0_r in Ha.
  unfold loop. cbn [FaceSwapService.poll_loop]. unfold_monad. fold req.
  rewrite Ha, Hs. cbn. unfold first_output, result_field.
  unfold vendor_code in Hc. destruct (json resp) as [data|e]; [|discriminate Hc].
  rewrite Hc. cbn. rewrite E.
  destruct (getitem_str data "result") as [result|e]; [|reflexivity]. cbn.
  destruct (getitem_str result "output") as [output|e]; reflexivity.
Qed.

Lemma poll_loop_stop_failure (n : nat) (w : World) (resp : Response) :
  answer w 0 = Return resp ->
  status_code resp <> 200%Z \/ has_code_outside resp [100000; 300001]%Z ->
  fst (loop (S n) w) = Raise poll_failed.
Proof.
  intros Ha H. unfold answer in Ha. rewrite Nat.add_0_r in Ha.
  unfold loop. cbn [FaceSwapService.poll_loop]. unfold_monad. fold req.
  rewrite Ha.
  destruct (status_code resp =? 200)%Z eqn:Es; [|reflexivity].
  apply Z.eqb_eq in Es. destruct H as [H | (c & Hc & H)]; [contradiction|].
  unfold vendor_code in Hc. destruct (json resp) as [data|e]; [|discriminate Hc].
  cbn. rewrite Hc. cbn.
  rewrite (H 100000%Z) by (cbn; tauto). rewrite (H 300001%Z) by (cbn; tauto).
  reflexivity.
Qed.

Lemma poll_loop_stop_return (n : nat) (w : World) (v : JSON) :
  ~ still_processing (answer w 0) ->
  fst (loop (S n) w) = Return v ->
  exists resp, answer w 0 = Return resp /\ status_code resp = 200%Z
               /\ has_code resp 100000 /\ first_output resp = Return v.
Proof.
  intros Hnot. unfold loop. cbn [FaceSwapService.poll_loop]. unfold_monad.
  fold req. unfold answer in *. rewrite Nat.add_0_r in *.
  destruct (http env _ req) as [resp|e] eqn:Ha; [|discriminate].
  destruct (status_code resp =? 200)%Z eqn:Es; [|discriminate].
  apply Z.eqb_eq in Es.
  destruct (json resp) as [data|e] eqn:Ej; [|discriminate]. cbn.
  destruct (py_get data "code") as [c|e] eqn:Ec; [|discriminate]. cbn.
  destruct (py_eq_int c 100000) eqn:E1.
  - intros H. exists resp. repeat split; [exact Es| |].
    + exists c. unfold vendor_code. rewrite Ej. now split.
    + unfold first_output, result_field. rewrite Ej.
      destruct (getitem_str data "result") as [result|e]; [|discriminate H].
      cbn in H.
      destruct (getitem_str result "output") as [output|e]; [|discriminate H].
      exact H.
  - destruct (py_eq_int c 300001) eqn:E; [|discriminate].
    exfalso. apply Hnot. exists resp. repeat split; [exact Es|].
    exists c. unfold vendor_code. rewrite Ej. now split.
Qed.

Lemma answer_after_rounds (w : World) (k : nat) :
  answer (advance w (poll_rounds req interval k)) 0 = answer w k.
Proof.
  unfold answer. cbn. rewrite requests_made_app, length_app.
  rewrite requests_made_poll_rounds, repeat_length. f_equal. lia.
Qed.

(** The loop after [k] polls that found the job running. *)
Lemma poll_loop_at (n k : nat) (w : World) :
  (k < n)%nat ->
  (forall i, (i < k)%nat -> still_processing (answer w i)) ->
  loop n w = loop (S (n - S k)) (advance w (poll_rounds req interval k)).
Proof.
  intros Hk Hpre. replace n with (k + S (n - S k))%nat at 1 by lia.
  apply poll_loop_skip. exact Hpre.
Qed.

Lemma poll_run_exhausted (n : nat) (w : World) :
  (forall i, (i < n)%nat -> still_processing (answer w i)) ->
  loop n w = (Raise retries_exceeded, advance w (poll_rounds req interval n)).
Proof.
  intros Hall. replace n with (n + 0)%nat at 1 by lia.
  rewrite poll_loop_skip by exact Hall.
  reflexivity.
Qed.

Lemma poll_run_stop_world (n k : nat) (w : World) :
  (k < n)%nat ->
  (forall i, (i < k)%nat -> still_processing (answer w i)) ->
  ~ still_processing (answer w k) ->
  snd (loop n w) = advance w (poll_rounds req interval k ++ [EvRequest req]).
Proof.
  intros Hk Hpre Hnot. rewrite (poll_loop_at w Hk Hpre).
  rewrite poll_loop_stop_world.
  - apply advance_advance.
  - now rewrite answer_after_rounds.
Qed.

Lemma poll_run_success (n k : nat) (w : World) (resp : Response) :
  (k < n)%nat ->
  (forall i, (i < k)%nat -> still_processing (answer w i)) ->
  answer w k = Return resp ->
  status_code resp = 200%Z -> has_code resp 100000 ->
  loop n w = (first_output resp,
              advance w (poll_rounds req interval k ++ [EvRequest req])).
Proof.
  intros Hk Hpre Ha Hs Hc.
  assert (Hnot : ~ still_processing (answer w k)).
  { intros (r & Hr & _ & Hc'). rewrite Ha in Hr. injection Hr as <-.
    pose proof (has_code_unique Hc Hc'). discriminate. }
  rewrite (surjective_pairing (loop n w)). f_equal.
  - rewrite (poll_loop_at w Hk Hpre).
    apply poll_loop_stop_success; [|exact Hs|exact Hc].
    now rewrite answer_after_rounds.
  - now apply poll_run_stop_world.
Qed.

Lemma poll_run_failure (n k : nat) (w : World) (resp : Response) :
  (k < n)%nat ->
  (forall i, (i < k)%nat -> still_processing (answer w i)) ->
  answer w k = Return resp ->
  status_code resp <> 200%Z \/ has_code_outside resp [100000; 300001]%Z ->
  loop n w = (Raise poll_failed,
              advance w (poll_rounds req interval k ++ [EvRequest req])).
Proof.
  intros Hk Hpre Ha H.
  assert (Hnot : ~ still_processing (answer w k)).
  { intros (r & Hr & Hs & c & Hc & E). rewrite Ha in Hr. injection Hr as <-.
    destruct H as [H | (c' & Hc' & H)]; [contradiction|].
    rewrite Hc in Hc'. injection Hc' as <-.
    rewrite (H 300001%Z) in E by (cbn; tauto). discriminate. }
  rewrite (surjective_pairing (loop n w)). f_equal.
  - rewrite (poll_loop_at w Hk Hpre).
    apply poll_loop_stop_failure with (resp := resp); [|exact H].
    now rewrite answer_after_rounds.
  - now apply poll_run_stop_world.
Qed.

Lemma poll_run_return (n : nat) (w : World) (v : JSON) :
  fst (loop n w) = Return v ->
  exists k resp,
    (k < n)%nat
    /\ (forall i, (i < k)%nat -> still_processing (answer w i))
    /\ answer w k = Return resp /\ status_code resp = 200%Z
    /\ has_code resp 100000 /\ first_output resp = Return v.
Proof.
  intros Hret.
  destruct (first_exception (fun i => still_processing (answer w i)) n)
    as [Hall | (k & Hk & Hpre & Hnot)].
  - intros i. apply still_processing_dec.
  - rewrite (poll_run_exhausted _ Hall) in Hret. discriminate Hret.
  - rewrite (poll_loop_at w Hk Hpre) in Hret.
    apply poll_loop_stop_return in Hret.
    + destruct Hret as (resp & Ha & Hs & Hc & Ho).
      rewrite answer_after_rounds in Ha.
      exists k, resp. repeat split; assumption.
    + now rewrite answer_after_rounds.
Qed.

(** Past the [k]-th poll the loop has gone only if that poll found the job
    running. *)
Lemma poll_run_continues_only_if_processing (n k : nat) (w : World) :
  (S k < List.length (requests_made (events (snd (loop n w))))
         - List.length (requests_made (events w)))%nat ->
  still_processing (answer w k).
Proof.
  destruct (first_exception (fun i => still_processing (answer w i)) n)
    as [Hall | (k0 & Hk0 & Hpre & Hnot)].
  - intros i. apply still_processing_dec.
  - rewrite (poll_run_exhausted _ Hall). cbn.
    rewrite requests_made_app, length_app, requests_made_poll_rounds, repeat_length.
    intros H. apply Hall. lia.
  - rewrite (poll_run_stop_world w Hk0 Hpre Hnot). cbn.
    rewrite !requests_made_app, !length_app, requests_made_poll_rounds,
      repeat_length. cbn.
    intros H. apply Hpre. lia.
Qed.

End PollLoop.

Lemma new_requests_advance (w : World) (evs : list Event) :
  new_requests w (advance w evs) = requests_made evs.
Proof.
  unfold new_requests. cbn. rewrite requests_made_app.
  rewrite skipn_app, skipn_all, Nat.sub_diag. reflexivity.
Qed.

(** C2.  [get_face_swap_result] with its 30 attempts and 2-second pause:
    - it returns a value only if some poll was answered HTTP 200 with
      vendor code 100000, and the value is the first element of that
      answer's output list;
    - it polls again after a poll only if that poll was answered HTTP 200
      with code 300001;
    - at the first poll answered otherwise it stops at once: with the
      first output on code 100000, with the poll-failure condition on a
      status other than 200 or a code other than 100000 and 300001;
    - if all 30 polls are answered 300001 it fails with the
      retries-exceeded condition, having made 30 requests and no more. *)
Theorem poll_job_protocol (env : Env) (job_id : JSON) (w : World) :
  let run := FaceSwapService.get_face_swap_result env job_id 30 2 w in
  let req := poll_request env job_id in
  let answer := poll_answer env w job_id in
  (forall v, fst run = Return v ->
     exists k resp,
       (k < 30)%nat
       /\ (forall i, (i < k)%nat -> still_processing (answer i))
       /\ answer k = Return resp /\ status_code resp = 200%Z
       /\ has_code resp 100000 /\ first_output resp = Return v)
  /\ (forall k, (S k < List.length (new_requests w (snd run)))%nat ->
                still_processing (answer k))
  /\ (forall k resp,
        (k < 30)%nat ->
        (forall i, (i < k)%nat -> still_processing (answer i)) ->
        answer k = Return resp ->
        (status_code resp = 200%Z /\ has_code resp 100000 ->
         fst run = first_output resp
         /\ new_requests w (snd run) = repeat (EvRequest req) (S k))
        /\ (status_code resp <> 200%Z
            \/ has_code_outside resp [100000; 300001]%Z ->
            fst run = Raise poll_failed
            /\ new_requests w (snd run) = repeat (EvRequest req) (S k)))
  /\ ((forall i, (i < 30)%nat -> still_processing (answer i)) ->
      fst run = Raise retries_exceeded
      /\ new_requests w (snd run) = repeat (EvRequest req) 30).
Proof.
  intros run req answer.
  assert (Hi : (0 <= 2)%Z) by lia.
  assert (Hcount : forall k,
             requests_made (poll_rounds req 2 k ++ [EvRequest req])
             = repeat (EvRequest req) (S k)).
  { intros k. rewrite requests_made_app, requests_made_poll_rounds.
    change (requests_made [EvRequest req]) with [EvRequest req].
    rewrite <- repeat_cons. reflexivity. }
  subst run. unfold FaceSwapService.get_face_swap_result.
  change (Z.to_nat 30) with 30%nat.
  set (url := FaceSwapService.get_job_url env job_id).
  split; [|split; [|split]].
  - intros v Hv.
    exact (@poll_run_return env url FaceSwapService.API_HEADERS 2 Hi 30 w v Hv).
  - intros k Hk. unfold new_requests in Hk. rewrite length_skipn in Hk.
    exact (@poll_run_continues_only_if_processing env url
             FaceSwapService.API_HEADERS 2 Hi 30 k w Hk).
  - intros k resp Hk Hpre Ha. split.
    + intros [Hs Hc].
      rewrite (@poll_run_success env url FaceSwapService.API_HEADERS 2 Hi
                 30 k w resp Hk Hpre Ha Hs Hc).
      cbn [fst snd]. rewrite new_requests_advance. split; [reflexivity|].
      apply Hcount.
    + intros H.
      rewrite (@poll_run_failure env url FaceSwapService.API_HEADERS 2 Hi
                 30 k w resp Hk Hpre Ha H).
      cbn [fst snd]. rewrite new_requests_advance. split; [reflexivity|].
      apply Hcount.
  - intros Hall.
    rewrite (@poll_run_exhausted env url FaceSwapService.API_HEADERS 2 Hi
               30 w Hall).
    cbn [fst snd]. rewrite new_requests_advance. split; [reflexivity|].
    apply requests_made_poll_rounds.
Qed.

Lemma processing_reply_still_processing :
  still_processing (Return reply_processing).
Proof.
  exists reply_processing. repeat split.
  exists (JInt 300001). split; reflexivity.
Qed.

Lemma poll_job_protocol_witness :
  (fst (FaceSwapService.get_face_swap_result never_done (JStr "J1") 30 2 world0)
   = Raise retries_exceeded
   /\ new_requests world0
        (snd (FaceSwapService.get_face_swap_result never_done (JStr "J1")
                30 2 world0))
      = repeat (EvRequest (poll_request never_done (JStr "J1"))) 30)
  /\ (fst (FaceSwapService.get_face_swap_result done_at_third_poll (JStr "J1")
             30 2 world0)
      = Return (JStr "https://vendor/out.jpg")
      /\ new_requests world0
           (snd (FaceSwapService.get_face_swap_result done_at_third_poll
                   (JStr "J1") 30 2 world0))
         = repeat (EvRequest (poll_request done_at_third_poll (JStr "J1"))) 3)
  /\ (fst (FaceSwapService.get_face_swap_result unknown_code (JStr "J1")
             30 2 world0)
      = Raise poll_failed
      /\ new_requests world0
           (snd (FaceSwapService.get_face_swap_result unknown_code
                   (JStr "J1") 30 2 world0))
         = repeat (EvRequest (poll_request unknown_code (JStr "J1"))) 1).
Proof.
  split; [|split].
  - apply (proj2 (proj2 (proj2 (poll_job_protocol never_done (JStr "J1") world0)))).
    intros i Hi. unfold poll_answer, never_done. cbn [http scripted].
    cbn [events world0 requests_made filter List.length Nat.add].
    rewrite nth_error_repeat by exact Hi.
    exact processing_reply_still_processing.
  - apply (proj1 (proj1 (proj2 (proj2 (poll_job_protocol done_at_third_poll
                                         (JStr "J1") world0)))
                   2%nat reply_finished
                   ltac:(lia)
                   ltac:(intros [|[|i]] Hi;
                         [exact processing_reply_still_processing
                         |exact processing_reply_still_processing
                         |lia])
                   eq_refl)).
    split; [reflexivity|]. exists (JInt 100000). split; reflexivity.
  - apply (proj2 (proj1 (proj2 (proj2 (poll_job_protocol unknown_code
                                         (JStr "J1") world0)))
                   0%nat reply_unknown_code
                   ltac:(lia)
                   ltac:(intros i Hi; lia)
                   eq_refl)).
    right. exists (JInt 500000). split; [reflexivity|].
    intros n [<-|[<-|[]]]; reflexivity.
Defined.

(** C9.  The success branch indexes [data["result"]["output"][0]] without
    a guard: a poll answered HTTP 200 with code 100000 whose body has no
    [result], or whose [result] has no [output], or whose output list is
    empty, ends the call with a [KeyError] or an [IndexError], which is
    neither a returned value nor one of the two poll conditions. *)
Theorem poll_success_without_output_is_a_lookup_error (env : Env)
  (job_id : JSON) (w : World) (k : nat) (resp : Response)
  (d : list (string * JSON)) :
  (k < 30)%nat ->
  (forall i, (i < k)%nat -> still_processing (poll_answer env w job_id i)) ->
  poll_answer env w job_id k = Return resp ->
  status_code resp = 200%Z ->
  json resp = Return (JObj d) ->
  has_code resp 100000 ->
  (dict_lookup d "result" = None
   \/ exists r, dict_lookup d "result" = Some (JObj r)
                /\ (dict_lookup r "output" = None
                    \/ dict_lookup r "output" = Some (JArr []))) ->
  exists e,
    fst (FaceSwapService.get_face_swap_result env job_id 30 2 w) = Raise e
    /\ (e = KeyError "'result'" \/ e = KeyError "'output'"
        \/ e = IndexError "list index out of range")
    /\ e <> poll_failed /\ e <> retries_exceeded.
Proof.
  intros Hk Hpre Ha Hs Hj Hc Hshape.
  assert (Hi : (0 <= 2)%Z) by lia.
  unfold FaceSwapService.get_face_swap_result.
  change (Z.to_nat 30) with 30%nat.
  rewrite (@poll_run_success env (FaceSwapService.get_job_url env job_id)
             FaceSwapService.API_HEADERS 2 Hi 30 k w resp Hk Hpre Ha Hs Hc).
  cbn [fst]. unfold first_output, result_field. rewrite Hj. cbn.
  destruct Hshape as [Hr | (r & Hr & [Ho | Ho])]; rewrite Hr; cbn.
  - eexists. split; [reflexivity|]. repeat split; [tauto | discriminate..].
  - rewrite Ho. eexists. split; [reflexivity|].
    repeat split; [tauto | discriminate..].
  - rewrite Ho. cbn. eexists. split; [reflexivity|].
    repeat split; [tauto | discriminate..].
Qed.

Lemma poll_success_without_output_is_a_lookup_error_witness :
  exists e,
    fst (FaceSwapService.get_face_swap_result done_without_output (JStr "J1")
           30 2 world0) = Raise e
    /\ (e = KeyError "'result'" \/ e = KeyError "'output'"
        \/ e = IndexError "list index out of range")
    /\ e <> poll_failed /\ e <> retries_exceeded.
Proof.
  apply (poll_success_without_output_is_a_lookup_error
           done_without_output (JStr "J1") world0
           (k := 0) (resp := reply_finished_empty)
           (d := [("code", JInt 100000); ("result", JObj [("output", JArr [])])])).
  - lia.
  - intros i Hi. lia.
  - reflexivity.
  - reflexivity.
  - reflexivity.
  - exists (JInt 100000). split; reflexivity.
  - right. exists [("output", JArr [])]. split; [reflexivity|].
    right. reflexivity.
Defined.

(** ** The endpoint *)

Lemma unsupported_format_reply (cfg : Config) (env : Env)
  (authorization : option string) (token : string) (src tgt : bytes)
  (w : World) :
  verify_auth_token cfg authorization = Return token ->
  FaceSwapService._validate_image src = false
  \/ FaceSwapService._validate_image tgt = false ->
  post_face_swap cfg env authorization src tgt w
  = (ReplyError 500 ("处理失败: " ++ "400: 图片格式不支持"),
     advance w [EvLog "400: 图片格式不支持"]).
Proof.
  intros Hauth Hbad. unfold post_face_swap, face_swap, face_swap_try.
  rewrite Hauth.
  assert (E : negb (FaceSwapService._validate_image src)
              || negb (FaceSwapService._validate_image tgt) = true).
  { destruct Hbad as [-> | ->]; [reflexivity | apply orb_true_r]. }
  unfold_monad. rewrite E. reflexivity.
Qed.

(** C1 at a failing request.  A valid token, a first upload without any
    signature and a JPEG: no request goes to the vendor, but the answer
    is 500.  The handler raises the 400 inside its own [try], whose
    [except Exception] catches it and raises the 500 in its place. *)
Theorem unsupported_format_is_answered_500 :
  verify_auth_token cfg0 (Some "Bearer token1") = Return "token1"
  /\ FaceSwapService._validate_image junk_sample = false
  /\ forall env : Env,
       let out := post_face_swap cfg0 env (Some "Bearer token1")
                    junk_sample jpeg_sample world0 in
       reply_status (fst out) = 500%Z
       /\ reply_status (fst out) <> 400%Z
       /\ requests_made (events (snd out)) = [].
Proof.
  split; [reflexivity|]. split; [reflexivity|].
  intros env out. subst out.
  rewrite (@unsupported_format_reply cfg0 env (Some "Bearer token1") "token1"
             junk_sample jpeg_sample world0 eq_refl (or_introl eq_refl)).
  cbn. repeat split. discriminate.
Qed.

Lemma dict_lookup_set {V : Type} (d : list (string * V)) (k : string) (v : V) :
  dict_lookup (dict_set d k v) k = Some v.
Proof.
  induction d as [|[k' v'] d IH]; cbn.
  - now rewrite String.eqb_refl.
  - destruct (String.eqb k' k) eqn:E; cbn.
    + now rewrite String.eqb_refl.
    + now rewrite E.
Qed.

Lemma dict_mem_remove {V : Type} (d : list (string * V)) (k : string) :
  dict_mem (dict_remove d k) k = false.
Proof.
  unfold dict_mem. induction d as [|[k' v'] d IH]; cbn; [reflexivity|].
  destruct (String.eqb k' k) eqn:E; cbn; [exact IH|]. now rewrite E.
Qed.

Lemma quiet_app (a b : list Event) : quiet a -> quiet b -> quiet (a ++ b).
Proof. unfold quiet. intros Ha Hb. now rewrite forallb_app, Ha, Hb. Qed.

Lemma poll_loop_quiet (env : Env) (url : string) (headers : Headers)
  (interval : Z) (n : nat) (w : World) :
  exists evs,
    snd (FaceSwapService.poll_loop env n url headers interval w) = advance w evs
    /\ quiet evs.
Proof.
  revert w; induction n as [|n IH]; intros w.
  - exists []. cbn. now rewrite advance_nil.
  - cbn [FaceSwapService.poll_loop]. unfold_monad.
    set (req := GET (JStr url) headers false).
    assert (Hstop : exists evs,
               advance w [EvRequest req] = advance w evs /\ quiet evs)
      by (exists [EvRequest req]; split; reflexivity).
    destruct (http env _ req) as [resp|e]; [|exact Hstop].
    destruct (status_code resp =? 200)%Z; [|exact Hstop].
    destruct (json resp) as [data|e]; [|exact Hstop]. cbn.
    destruct (py_get data "code") as [c|e]; [|exact Hstop]. cbn.
    destruct (py_eq_int c 100000).
    + destruct (getitem_str data "result") as [result|e]; [|exact Hstop]. cbn.
      destruct (getitem_str result "output") as [output|e]; exact Hstop.
    + destruct (py_eq_int c 300001); [|exact Hstop].
      destruct (interval <? 0)%Z; [exact Hstop|]. cbn.
      match goal with
      | |- context [FaceSwapService.poll_loop env n url headers interval ?w2] =>
          destruct (IH w2) as (evs & Hw & Hq); rewrite Hw
      end.
      exists ([EvRequest req; EvSleep interval] ++ evs)%list. split.
      * unfold advance. cbn. now rewrite <- !app_assoc.
      * apply quiet_app; [reflexivity | exact Hq].
Qed.

Lemma download_image_cases (env : Env) (url : JSON) (output_path : string)
  (w : World) :
  let filename := generate_filename env "jpg" in
  let path := os_path_join output_path filename in
  let out := download_image env url output_path w in
  (exists e evs, out = (Raise e, advance w evs) /\ quiet evs)
  \/ (exists pre content,
        events (snd out) = (events w ++ pre ++ [EvWrite path content])%list
        /\ quiet pre
        /\ files (snd out) = dict_set (files w) path content
        /\ (fst out = Return (filename, path) \/ exists e, fst out = Raise e)).
Proof.
  intros filename path out. subst out. unfold download_image. unfold_monad.
  unfold raise_for_status, os_makedirs, write_file. unfold_monad.
  fold filename. fold path.
  set (req := GET url [] true).
  destruct (http env _ req) as [r|e].
  2:{ left. exists e, [EvRequest req]. split; reflexivity. }
  destruct ((400 <=? status_code r) && (status_code r <? 600))%Z.
  { left. eexists. exists [EvRequest req]. split; reflexivity. }
  cbn.
  destruct (negb (path_exists output_path _)).
  - destruct (String.eqb output_path "").
    { left. eexists. exists [EvRequest req]. split; reflexivity. }
    right. exists [EvRequest req; EvMakedirs output_path], (List.concat (body_chunks r)).
    destruct (body_error r); cbn; rewrite <- !app_assoc; cbn;
      (split; [reflexivity|]; split; [reflexivity|]; split; [reflexivity|]);
      first [left; reflexivity | right; eexists; reflexivity].
  - right. exists [EvRequest req], (List.concat (body_chunks r)).
    destruct (body_error r); cbn; rewrite <- ?app_assoc; cbn;
      (split; [reflexivity|]; split; [reflexivity|]; split; [reflexivity|]);
      first [left; reflexivity | right; eexists; reflexivity].
Qed.

Lemma isinstance_Exception_all (e : exn) : isinstance_Exception e = true.
Proof. now destruct e. Qed.

Lemma upload_to_cos_world (env : Env) (r i k b : option string)
  (file_name base : string) (w : World) :
  snd (upload_to_cos env r i k b file_name base w)
  = advance w [EvCosUpload {| Region := r; SecretId := i; SecretKey := k;
                              Bucket := b;
                              LocalFilePath := os_path_join base file_name;
                              Key := file_name |}].
Proof.
  unfold upload_to_cos. unfold_monad.
  destruct (cos_upload_file env _ _) as [resp|e]; [|reflexivity].
  destruct (dict_mem resp "ETag"); reflexivity.
Qed.

Lemma bind_run {A B : Type} (m : M A) (k : A -> M B) (w : World) :
  bind m k w = match m w with
               | (Return a, w') => k a w'
               | (Raise e, w') => (Raise e, w')
               end.
Proof. reflexivity. Qed.

(** What the [try] block leaves behind: a finished run ends with the
    write, the upload and the removal of one file; a run that fails
    after the write keeps the file; a run that fails earlier wrote
    nothing. *)
Lemma face_swap_try_trace (cfg : Config) (env : Env) (src tgt : bytes)
  (w : World) :
  let out := face_swap_try cfg env src tgt w in
  (exists body pre call path content,
      fst out = Return body
      /\ events (snd out)
         = (events w ++ pre
            ++ [EvWrite path content; EvCosUpload call; EvRemove path])%list
      /\ quiet pre /\ LocalFilePath call = path
      /\ dict_mem (files (snd out)) path = false)
  \/ (exists e pre path content tail,
        fst out = Raise e
        /\ events (snd out)
           = (events w ++ pre ++ EvWrite path content :: tail)%list
        /\ quiet pre /\ quiet tail
        /\ dict_lookup (files (snd out)) path = Some content)
  \/ (exists e evs,
        fst out = Raise e
        /\ events (snd out) = (events w ++ evs)%list /\ quiet evs).
Proof.
  intros out. subst out. unfold face_swap_try.
  destruct (negb _ || negb _).
  { right. right. eexists. exists []. cbn. rewrite app_nil_r.
    repeat split; reflexivity. }
  (* create the job *)
  rewrite bind_run.
  pose proof (create_face_swap_job_world cfg env src tgt w) as H1.
  destruct (FaceSwapService.create_face_swap_job cfg env src tgt w)
    as [r1 w1].
  cbn [snd] in H1. subst w1.
  set (ev1 := EvRequest (create_request cfg src tgt)).
  destruct r1 as [job_id|e]; cbv beta iota.
  2:{ right. right. exists e, [ev1]. repeat split; reflexivity. }
  (* poll *)
  rewrite bind_run.
  destruct (poll_loop_quiet env (FaceSwapService.get_job_url env job_id)
              FaceSwapService.API_HEADERS 2 (Z.to_nat 30) (advance w [ev1]))
    as (evs2 & H2 & Hq2).
  fold (FaceSwapService.get_face_swap_result env job_id 30 2) in H2.
  destruct (FaceSwapService.get_face_swap_result env job_id 30 2
              (advance w [ev1])) as [r2 w2'].
  cbn [snd] in H2. subst w2'. rewrite advance_advance.
  assert (Hq12 : quiet ([ev1] ++ evs2))
    by (apply quiet_app; [reflexivity | exact Hq2]).
  destruct r2 as [result_url|e]; cbv beta iota.
  2:{ right. right. exists e, ([ev1] ++ evs2)%list.
      repeat split; try reflexivity; exact Hq12. }
  (* download *)
  rewrite bind_run.
  set (w2 := advance w ([ev1] ++ evs2)).
  pose proof (download_image_cases env result_url (image_output_path cfg) w2)
    as H3. cbv zeta in H3.
  set (filename := generate_filename env "jpg") in *.
  set (path := os_path_join (image_output_path cfg) filename) in *.
  destruct (download_image env result_url (image_output_path cfg) w2)
    as [r3 w3].
  cbn [fst snd] in H3.
  destruct H3 as [(e & evs3 & Heq & Hq3)
                 | (pre3 & content & Hev & Hq3 & Hfiles & Hres)].
  { injection Heq as -> ->. cbv beta iota.
    right. right. exists e, (([ev1] ++ evs2) ++ evs3)%list.
    subst w2. rewrite advance_advance.
    repeat split; try reflexivity. now apply quiet_app. }
  assert (Hev' : events w3
                 = (events w ++ (([ev1] ++ evs2) ++ pre3)
                    ++ [EvWrite path content])%list).
  { rewrite Hev. subst w2. cbn [events advance]. now rewrite <- !app_assoc. }
  assert (Hq123 : quiet (([ev1] ++ evs2) ++ pre3)) by now apply quiet_app.
  destruct Hres as [-> | (e & ->)]; cbv beta iota.
  2:{ right. left. exists e, (([ev1] ++ evs2) ++ pre3)%list, path, content, [].
      cbn [fst snd]. rewrite Hfiles, dict_lookup_set.
      repeat split; try reflexivity; assumption. }
  (* upload *)
  rewrite bind_run.
  pose proof (upload_to_cos_world env (region cfg) (secret_id cfg)
                (secret_key cfg) (bucket cfg) filename (image_output_path cfg) w3)
    as H4. fold path in H4.
  set (call := {| Region := region cfg; SecretId := secret_id cfg;
                  SecretKey := secret_key cfg; Bucket := bucket cfg;
                  LocalFilePath := path; Key := filename |}) in *.
  destruct (upload_to_cos env (region cfg) (secret_id cfg) (secret_key cfg)
              (bucket cfg) filename (image_output_path cfg) w3)
    as [r4 w4].
  cbn [snd] in H4. subst w4.
  destruct r4 as [cos_url|e]; cbv beta iota.
  2:{ right. left.
      exists e, (([ev1] ++ evs2) ++ pre3)%list, path, content, [EvCosUpload call].
      cbn [fst snd events files advance]. rewrite Hfiles, dict_lookup_set, Hev'.
      rewrite <- !app_assoc.
      repeat split; try reflexivity; assumption. }
  (* remove *)
  rewrite bind_run. unfold os_remove, ret. cbn [files advance].
  assert (Hmem : dict_mem (files w3) path = true).
  { unfold dict_mem. now rewrite Hfiles, dict_lookup_set. }
  rewrite Hmem. left.
  eexists. exists (([ev1] ++ evs2) ++ pre3)%list, call, path, content.
  cbn [fst snd events files advance]. rewrite Hev', <- !app_assoc.
  repeat split; try reflexivity; try assumption. apply dict_mem_remove.
Qed.

Lemma quiet_In (evs : list Event) (e : Event) :
  quiet evs -> In e evs -> keeps_files e = true.
Proof. unfold quiet. rewrite forallb_forall. intros H. apply H. Qed.

(** C8.  The removal of the downloaded file is the last thing a
    successful request does: the run ends with the write of the file, its
    upload and its removal, and the file is gone when the 200 answer is
    produced.  A request that wrote the file and does not end in success
    (the download broke off, or the upload raised or came back without an
    entity tag) never removes it: the file is still on the disk when the
    error answer is produced. *)
Theorem artifact_removed_only_on_success (cfg : Config) (env : Env)
  (authorization : option string) (src tgt : bytes) (w : World) :
  let out := post_face_swap cfg env authorization src tgt w in
  exists new,
    events (snd out) = (events w ++ new)%list
    /\ (forall body, fst out = Reply200 body ->
          exists pre call path content,
            new = (pre ++ [EvWrite path content; EvCosUpload call;
                           EvRemove path])%list
            /\ LocalFilePath call = path
            /\ dict_mem (files (snd out)) path = false)
    /\ (forall path content,
          In (EvWrite path content) new ->
          (forall body, fst out <> Reply200 body) ->
          ~ In (EvRemove path) new
          /\ dict_lookup (files (snd out)) path = Some content).
Proof.
  intros out. subst out. unfold post_face_swap.
  destruct (verify_auth_token cfg authorization) as [token|e0].
  2:{ exists []. cbn [fst snd]. rewrite app_nil_r. split; [reflexivity|].
      split; [|intros ? ? []].
      intros body H. destruct e0; discriminate H. }
  unfold face_swap, try_except.
  pose proof (face_swap_try_trace cfg env src tgt w) as H. cbv zeta in H.
  destruct (face_swap_try cfg env src tgt w) as [r w'].
  cbn [fst snd] in H.
  destruct H as [(body & pre & call & path & content & -> & Hev & Hq & Hc & Hm)
                | [(e & pre & path & content & tail & -> & Hev & Hq & Hqt & Hf)
                  | (e & evs & -> & Hev & Hq)]].
  - exists (pre ++ [EvWrite path content; EvCosUpload call; EvRemove path])%list.
    cbn [fst snd]. split; [exact Hev|]. split.
    + intros body' _. exists pre, call, path, content.
      repeat split; assumption.
    + intros p c _ Hnot. elim (Hnot body). reflexivity.
  - rewrite isinstance_Exception_all. unfold_monad. unfold emit.
    cbn -[String.append exn_str].
    exists (pre ++ EvWrite path content :: tail ++ [EvLog (exn_str e)])%list.
    split; [rewrite Hev, <- !app_assoc; reflexivity|]. split.
    + intros body H. discriminate H.
    + intros p c Hin _.
      assert (Hpc : p = path /\ c = content).
      { apply in_app_or in Hin. destruct Hin as [Hin | [Hin | Hin]].
        - apply (quiet_In _ Hq) in Hin. discriminate Hin.
        - injection Hin as -> ->. now split.
        - apply in_app_or in Hin. destruct Hin as [Hin | [Hin | []]].
          + apply (quiet_In _ Hqt) in Hin. discriminate Hin.
          + discriminate Hin. }
      destruct Hpc as [-> ->]. split; [|exact Hf].
      intros Hin'. apply in_app_or in Hin'. destruct Hin' as [Hin' | [Hin' | Hin']].
      * apply (quiet_In _ Hq) in Hin'. discriminate Hin'.
      * discriminate Hin'.
      * apply in_app_or in Hin'. destruct Hin' as [Hin' | [Hin' | []]].
        -- apply (quiet_In _ Hqt) in Hin'. discriminate Hin'.
        -- discriminate Hin'.
  - rewrite isinstance_Exception_all. unfold_monad. unfold emit.
    cbn -[String.append exn_str].
    exists (evs ++ [EvLog (exn_str e)])%list.
    split; [rewrite Hev, <- !app_assoc; reflexivity|]. split.
    + intros body H. discriminate H.
    + intros p c Hin _. exfalso.
      apply in_app_or in Hin. destruct Hin as [Hin | [Hin | []]].
      * apply (quiet_In _ Hq) in Hin. discriminate Hin.
      * discriminate Hin.
Qed.

Lemma artifact_removed_only_on_success_witness :
  (let out := post_face_swap cfg0 happy (Some "Bearer token1")
                jpeg_sample png_sample world0 in
   exists pre call path content,
     events (snd out)
     = (pre ++ [EvWrite path content; EvCosUpload call; EvRemove path])%list
     /\ dict_mem (files (snd out)) path = false)
  /\ (let out := post_face_swap cfg0 upload_refused (Some "Bearer token1")
                   jpeg_sample png_sample world0 in
      let path := "./output/faceswap_20240102030405_1234.jpg" in
      ~ In (EvRemove path) (events (snd out))
      /\ dict_lookup (files (snd out)) path = Some jpeg_sample).
Proof.
  split; cbv zeta.
  - destruct (artifact_removed_only_on_success cfg0 happy
                (Some "Bearer token1") jpeg_sample png_sample world0)
      as (new & Hev & Hok & _).
    destruct (Hok _ eq_refl) as (pre & call & path & content & Hnew & _ & Hm).
    exists pre, call, path, content. split; [|exact Hm].
    rewrite Hev, Hnew. reflexivity.
  - destruct (artifact_removed_only_on_success cfg0 upload_refused
                (Some "Bearer token1") jpeg_sample png_sample world0)
      as (new & Hev & _ & Hfail).
    change (events world0 ++ new)%list with new in Hev.
    rewrite Hev.
    apply (Hfail "./output/faceswap_20240102030405_1234.jpg" jpeg_sample).
    + rewrite <- Hev. vm_compute. do 4 right. left. reflexivity.
    + intros body. vm_compute. discriminate.
Defined.

(** * Further properties *)

(** ** The format sniffer: what is and is not looked at *)

(** X1.  Validation looks at the signature and at nothing else: a buffer
    that begins with the JPEG, PNG, GIF87a, GIF89a or BM signature is
    accepted whatever follows, and so is RIFF, any four bytes, WEBP and
    whatever follows. *)
Theorem signature_then_anything_is_accepted (rest size : bytes) :
  List.length size = 4%nat ->
  FaceSwapService._validate_image (sig_jpeg ++ rest)%list = true
  /\ FaceSwapService._validate_image (sig_png ++ rest)%list = true
  /\ FaceSwapService._validate_image (sig_gif87a ++ rest)%list = true
  /\ FaceSwapService._validate_image (sig_gif89a ++ rest)%list = true
  /\ FaceSwapService._validate_image (sig_riff ++ size ++ sig_webp ++ rest)%list = true
  /\ FaceSwapService._validate_image (sig_bm ++ rest)%list = true.
Proof.
  intros Hsize.
  destruct size as [|s0 [|s1 [|s2 [|s3 [|s4 size]]]]]; try discriminate Hsize.
  repeat split; reflexivity.
Qed.

Lemma signature_then_anything_is_accepted_witness :
  FaceSwapService._validate_image (sig_bm ++ b_ "not a bitmap at all")%list = true
  /\ FaceSwapService._validate_image
       (sig_riff ++ [x00; x00; x00; x00] ++ sig_webp ++ [])%list = true.
Proof.
  split.
  - apply (signature_then_anything_is_accepted (b_ "not a bitmap at all")
             [x00; x00; x00; x00] eq_refl).
  - apply (signature_then_anything_is_accepted [] [x00; x00; x00; x00] eq_refl).
Defined.

(** X2.  No buffer of fewer than two bytes is accepted (the empty upload
    is rejected), and one that is not a BMP needs at least three: the
    shortest signatures are BM and FF D8 FF. *)
Theorem accepted_buffer_is_not_short (buf : bytes) :
  FaceSwapService._validate_image buf = true ->
  (2 <= List.length buf)%nat
  /\ (startswith buf sig_bm = false -> (3 <= List.length buf)%nat).
Proof.
  destruct buf as [|a [|b [|c rest]]].
  - discriminate.
  - unfold FaceSwapService._validate_image. cbn.
    rewrite !andb_false_r. discriminate.
  - intros H. split; [cbn; lia|]. intros Hbm. exfalso.
    unfold FaceSwapService._validate_image in H. cbn in H, Hbm.
    rewrite !andb_false_r in H. cbn in H. rewrite !andb_true_r in Hbm.
    rewrite orb_false_r, andb_true_r in H. congruence.
  - intros _. cbn. split; [lia | intros _; lia].
Qed.

Lemma accepted_buffer_is_not_short_witness :
  (2 <= List.length sig_bm)%nat /\ (3 <= List.length sig_jpeg)%nat.
Proof.
  split.
  - apply (accepted_buffer_is_not_short sig_bm eq_refl).
  - apply (accepted_buffer_is_not_short sig_jpeg eq_refl). reflexivity.
Defined.

(** ** The allow-list and the bearer check *)

Lemma split_not_nil (sep : ascii) (s : string) : split sep s <> [].
Proof.
  induction s as [|c s IH]; cbn; [discriminate|].
  destruct (Ascii.eqb c sep); [discriminate|].
  destruct (split sep s); [contradiction | discriminate].
Qed.

Lemma concat_split (sep : ascii) (s : string) :
  String.concat (String sep EmptyString) (split sep s) = s.
Proof.
  induction s as [|c s IH]; [reflexivity|]. cbn [split].
  pose proof (split_not_nil sep s) as Hne.
  destruct (Ascii.eqb c sep) eqn:E.
  - apply Ascii.eqb_eq in E. subst c.
    destruct (split sep s) as [|p rest]; [contradiction|].
    rewrite <- IH. reflexivity.
  - destruct (split sep s) as [|p rest]; [contradiction|].
    rewrite <- IH. destruct rest; reflexivity.
Qed.

Lemma split_pieces_no_sep (sep : ascii) (s p : string) :
  In p (split sep s) -> ~ has_char sep p.
Proof.
  revert p; induction s as [|c s IH]; cbn [split]; intros p.
  - intros [<-|[]]. cbn. tauto.
  - destruct (Ascii.eqb c sep) eqn:E.
    + intros [<-|H]; [cbn; tauto | now apply IH].
    + pose proof (split_not_nil sep s) as Hne.
      destruct (split sep s) as [|q rest]; [contradiction|].
      intros [<-|H].
      * cbn. intros [Hc|Hq].
        -- subst c. now rewrite Ascii.eqb_refl in E.
        -- apply (IH q); [now left | exact Hq].
      * apply IH. now right.
Qed.

Lemma split_app_sep (sep : ascii) (t u : string) :
  split sep (t ++ String sep u) = (split sep t ++ split sep u)%list.
Proof.
  induction t as [|c t IH]; cbn [append split].
  - now rewrite Ascii.eqb_refl.
  - destruct (Ascii.eqb c sep); [now rewrite IH|].
    rewrite IH. pose proof (split_not_nil sep t) as Hne.
    destruct (split sep t) as [|p rest]; [contradiction | reflexivity].
Qed.

(** X3.  The allow-list is the text of [VALID_TOKENS] cut at its commas
    and nothing more: joined back with commas the tokens give the text
    again, so no blank is trimmed and no empty piece is dropped, and no
    token holds a comma. *)
Theorem valid_tokens_are_the_comma_pieces (cfg : Config) :
  String.concat "," (valid_tokens cfg)
  = getenv_default (VALID_TOKENS cfg) "token1,token2"
  /\ valid_tokens cfg <> []
  /\ forall token, In token (valid_tokens cfg) -> ~ has_char "," token.
Proof.
  unfold valid_tokens. split; [apply concat_split|].
  split; [apply split_not_nil|].
  intros token. apply split_pieces_no_sep.
Qed.

Lemma valid_tokens_are_the_comma_pieces_witness :
  valid_tokens cfg_spaced_tokens = ["alpha"; " beta"]
  /\ ~ has_char "," " beta".
Proof.
  split; [reflexivity|].
  apply (proj2 (proj2 (valid_tokens_are_the_comma_pieces cfg_spaced_tokens))).
  cbn. tauto.
Defined.

Lemma partition_cases (sep : ascii) (h a s b : string) :
  partition sep h = (a, s, b) ->
  ~ has_char sep a
  /\ ((s = String sep EmptyString /\ h = a ++ String sep b)
      \/ (s = EmptyString /\ b = EmptyString /\ h = a)).
Proof.
  revert a s b; induction h as [|c h IH]; cbn [partition]; intros a s b.
  - intros [= <- <- <-]. split; [cbn; tauto | right; auto].
  - destruct (Ascii.eqb c sep) eqn:E.
    + apply Ascii.eqb_eq in E. subst c. intros [= <- <- <-].
      split; [cbn; tauto | left; auto].
    + destruct (partition sep h) as [[a' s'] b'].
      destruct (IH a' s' b' eq_refl) as (Hno & Hcase).
      assert (Hc : c <> sep) by (intros ->; now rewrite Ascii.eqb_refl in E).
      destruct s' as [|c' s''].
      * intros [= <- <- <-]. destruct Hcase as [[Hs _] | (_ & _ & ->)];
          [discriminate Hs|].
        split; [cbn; tauto | right; auto].
      * intros [= <- <- <-]. destruct Hcase as [[Hs ->] | (Hs & _)];
          [|discriminate Hs].
        split; [cbn; tauto | left; split; [exact Hs | reflexivity]].
Qed.

Lemma partition_without_sep (sep : ascii) (h : string) :
  ~ has_char sep h -> partition sep h = (h, EmptyString, EmptyString).
Proof.
  induction h as [|c h IH]; cbn; [reflexivity|]. intros Hno.
  destruct (Ascii.eqb c sep) eqn:E.
  - apply Ascii.eqb_eq in E. tauto.
  - rewrite IH by tauto. reflexivity.
Qed.

Lemma lower_bearer_no_space (scheme : string) :
  lower scheme = "bearer" -> ~ has_char " " scheme.
Proof.
  intros Hs H. apply lower_keeps_space in H. rewrite Hs in H.
  cbn in H. repeat (destruct H as [H|H]; [discriminate H|]). exact H.
Qed.

Lemma verify_auth_token_accepts (cfg : Config) (scheme token : string) :
  lower scheme = "bearer" -> In token (valid_tokens cfg) ->
  verify_auth_token cfg (Some (scheme ++ " " ++ token)) = Return token
  /\ (token = "" -> verify_auth_token cfg (Some scheme) = Return "").
Proof.
  intros Hs Hin. pose proof (lower_bearer_no_space _ Hs) as Hno.
  apply str_in_In in Hin. unfold verify_auth_token. split.
  - destruct (scheme ++ " " ++ token) as [|c rest] eqn:E.
    { destruct scheme; [discriminate Hs | discriminate E]. }
    rewrite <- E.
    change (scheme ++ " " ++ token) with (scheme ++ String " " token).
    rewrite (partition_at_first_sep " " scheme token Hno).
    now rewrite Hs, Hin.
  - intros ->. destruct scheme as [|c s]; [discriminate Hs|].
    rewrite (partition_without_sep " " (String c s) Hno).
    now rewrite Hs, Hin.
Qed.

(** X4.  The check succeeds for exactly the headers that are a spelling
    of "bearer" followed by one space and an allow-listed token, or a
    spelling of "bearer" alone when the empty token is allow-listed; the
    token it returns is the text after the first space, further spaces
    included. *)
Theorem verify_auth_token_accepts_exactly (cfg : Config) (h token : string) :
  verify_auth_token cfg (Some h) = Return token <->
  In token (valid_tokens cfg)
  /\ exists scheme,
       lower scheme = "bearer"
       /\ (h = scheme ++ " " ++ token \/ (h = scheme /\ token = "")).
Proof.
  split.
  - unfold verify_auth_token. destruct h as [|c h]; [discriminate|].
    destruct (partition " " (String c h)) as [[scheme sep] tok] eqn:Hp.
    destruct (String.eqb (lower scheme) "bearer") eqn:Es; [|discriminate].
    destruct (str_in tok (valid_tokens cfg)) eqn:Et; [|discriminate].
    cbn. intros [= <-]. apply String.eqb_eq in Es. apply str_in_In in Et.
    split; [exact Et|]. exists scheme. split; [exact Es|].
    destruct (partition_cases _ _ Hp) as (_ & [[_ ->] | (_ & -> & ->)]);
      [left; reflexivity | right; auto].
  - intros (Hin & scheme & Hs & [-> | [-> ->]]).
    + apply (verify_auth_token_accepts cfg scheme token Hs Hin).
    + now apply (verify_auth_token_accepts cfg scheme "" Hs Hin).
Qed.

Lemma verify_auth_token_accepts_exactly_witness :
  verify_auth_token cfg_spaced_tokens (Some "Bearer  beta") = Return " beta"
  /\ verify_auth_token cfg_spaced_tokens (Some "Bearer beta")
     <> Return "beta".
Proof.
  split.
  - apply (proj2 (verify_auth_token_accepts_exactly cfg_spaced_tokens
                    "Bearer  beta" " beta")).
    split; [cbn; tauto|]. exists "Bearer". split; [reflexivity|].
    left. reflexivity.
  - intros H.
    apply (proj1 (verify_auth_token_accepts_exactly cfg_spaced_tokens
                    "Bearer beta" "beta")) in H.
    destruct H as ([H|[H|[]]] & _); discriminate H.
Defined.

(** X5.  Nothing keeps the empty token out of the allow-list.  When the
    text of [VALID_TOKENS] is empty, begins or ends with a comma, or has
    two commas in a row, the empty token is allow-listed, and a header
    that is just a spelling of "bearer", with or without a space after
    it, passes the check. *)
Theorem empty_piece_admits_bare_bearer (cfg : Config) (s scheme : string) :
  VALID_TOKENS cfg = Some s ->
  s = "" \/ (exists t, s = "," ++ t) \/ (exists t, s = t ++ ",")
  \/ (exists t u, s = t ++ ",," ++ u) ->
  lower scheme = "bearer" ->
  verify_auth_token cfg (Some scheme) = Return ""
  /\ verify_auth_token cfg (Some (scheme ++ " ")) = Return "".
Proof.
  intros Hcfg Hshape Hs.
  assert (Hin : In "" (valid_tokens cfg)).
  { unfold valid_tokens. rewrite Hcfg. cbn [getenv_default].
    destruct Hshape as [-> | [[t ->] | [[t ->] | (t & u & ->)]]].
    - now left.
    - now left.
    - change (t ++ ",") with (t ++ String "," "").
      rewrite split_app_sep. apply in_or_app. right. now left.
    - change (t ++ ",," ++ u) with (t ++ String "," (String "," u)).
      rewrite split_app_sep. apply in_or_app. right. cbn. now left. }
  destruct (verify_auth_token_accepts cfg scheme "" Hs Hin) as [H1 H2].
  split; [now apply H2 | exact H1].
Qed.

Lemma empty_piece_admits_bare_bearer_witness :
  verify_auth_token cfg_no_tokens (Some "Bearer") = Return ""
  /\ verify_auth_token cfg_no_tokens (Some ("Bearer" ++ " ")) = Return "".
Proof.
  apply (empty_piece_admits_bare_bearer cfg_no_tokens (s := "") "Bearer"
           eq_refl (or_introl eq_refl) eq_refl).
Defined.

(** ** The vendor job client: headers, bounds and waits *)

Lemma dict_lookup_set_other {V : Type} (d : list (string * V))
  (k k' : string) (v : V) :
  k <> k' -> dict_lookup (dict_set d k' v) k = dict_lookup d k.
Proof.
  intros Hne. induction d as [|[k0 v0] d IH]; cbn.
  - destruct (String.eqb k' k) eqn:E; [|reflexivity].
    apply String.eqb_eq in E. congruence.
  - destruct (String.eqb k0 k') eqn:E0; cbn.
    + apply String.eqb_eq in E0. subst k0.
      destruct (String.eqb k' k) eqn:E; [|reflexivity].
      apply String.eqb_eq in E. congruence.
    + destruct (String.eqb k0 k); [reflexivity | exact IH].
Qed.

(** Whatever the answers, a poll loop of [n] attempts leaves only its own
    requests and sleeps behind, and at most [n] requests. *)
Lemma poll_loop_events (env : Env) (url : string) (headers : Headers)
  (interval : Z) (n : nat) (w : World) :
  exists evs,
    snd (FaceSwapService.poll_loop env n url headers interval w) = advance w evs
    /\ Forall (fun e => e = EvRequest (GET (JStr url) headers false)
                        \/ e = EvSleep interval) evs
    /\ (List.length (requests_made evs) <= n)%nat.
Proof.
  revert w; induction n as [|n IH]; intros w.
  - exists []. cbn. rewrite advance_nil. repeat split; [constructor | lia].
  - cbn [FaceSwapService.poll_loop]. unfold_monad.
    set (req := GET (JStr url) headers false).
    assert (Hstop : exists evs,
               advance w [EvRequest req] = advance w evs
               /\ Forall (fun e => e = EvRequest req \/ e = EvSleep interval) evs
               /\ (List.length (requests_made evs) <= S n)%nat).
    { exists [EvRequest req]. repeat split.
      - constructor; [now left | constructor].
      - cbn. lia. }
    destruct (http env _ req) as [resp|e]; [|exact Hstop].
    destruct (status_code resp =? 200)%Z; [|exact Hstop].
    destruct (json resp) as [data|e]; [|exact Hstop]. cbn.
    destruct (py_get data "code") as [c|e]; [|exact Hstop]. cbn.
    destruct (py_eq_int c 100000).
    + destruct (getitem_str data "result") as [result|e]; [|exact Hstop]. cbn.
      destruct (getitem_str result "output") as [output|e]; exact Hstop.
    + destruct (py_eq_int c 300001); [|exact Hstop].
      destruct (interval <? 0)%Z; [exact Hstop|]. cbn.
      match goal with
      | |- context [FaceSwapService.poll_loop env n url headers interval ?w2] =>
          destruct (IH w2) as (evs & Hw & Hall & Hlen); rewrite Hw
      end.
      exists ([EvRequest req; EvSleep interval] ++ evs)%list. repeat split.
      * unfold advance. cbn. now rewrite <- !app_assoc.
      * constructor; [now left|]. constructor; [now right | exact Hall].
      * unfold requests_made in *. cbn. lia.
Qed.

(** X6.  The product serial travels with the create-job call only: that
    call carries every fixed header unchanged and [product-serial] with
    the configured value, while every request of the polling loop carries
    the fixed headers alone, without [product-serial]. *)
Theorem product_serial_header_only_on_create (cfg : Config) (env : Env)
  (src tgt : bytes) (job_id : JSON) (retries interval : Z) (w : World) :
  (exists h files,
      events (snd (FaceSwapService.create_face_swap_job cfg env src tgt w))
      = (events w
         ++ [EvRequest
               (POST "https://api.beart.ai/api/beart/face-swap/create-job"
                  h files)])%list
      /\ dict_lookup h "product-serial" = Some (product_serial cfg)
      /\ forall k, k <> "product-serial" ->
                   dict_lookup h k = dict_lookup FaceSwapService.API_HEADERS k)
  /\ (exists evs,
        snd (FaceSwapService.get_face_swap_result env job_id retries interval w)
        = advance w evs
        /\ forall r, In (EvRequest r) evs ->
             exists url h,
               r = GET url h false
               /\ h = FaceSwapService.API_HEADERS
               /\ dict_lookup h "product-serial" = None).
Proof.
  split.
  - rewrite create_face_swap_job_world.
    eexists. eexists. split; [reflexivity|]. split.
    + apply dict_lookup_set.
    + intros k Hk. now apply dict_lookup_set_other.
  - unfold FaceSwapService.get_face_swap_result.
    destruct (poll_loop_events env (FaceSwapService.get_job_url env job_id)
                FaceSwapService.API_HEADERS interval (Z.to_nat retries) w)
      as (evs & Hw & Hall & _).
    exists evs. split; [exact Hw|].
    intros r Hin. rewrite Forall_forall in Hall.
    destruct (Hall _ Hin) as [[= ->] | H]; [|discriminate H].
    eexists. eexists. split; [reflexivity|]. split; reflexivity.
Qed.

(** X7.  The retry ceiling is a hard bound whatever the vendor answers:
    a call with [retries] attempts sends at most that many requests, and
    leaves nothing behind but its own GET requests and sleeps; with a
    ceiling of zero or less it sends none and fails at once with the
    retries-exceeded condition. *)
Theorem poll_never_exceeds_retries (env : Env) (job_id : JSON)
  (retries interval : Z) (w : World) :
  let run := FaceSwapService.get_face_swap_result env job_id retries interval w in
  (List.length (new_requests w (snd run)) <= Z.to_nat retries)%nat
  /\ (exists evs,
        snd run = advance w evs
        /\ Forall (fun e => e = EvRequest (poll_request env job_id)
                            \/ e = EvSleep interval) evs)
  /\ ((retries <= 0)%Z -> run = (Raise retries_exceeded, w)).
Proof.
  intros run. subst run. unfold FaceSwapService.get_face_swap_result.
  destruct (poll_loop_events env (FaceSwapService.get_job_url env job_id)
              FaceSwapService.API_HEADERS interval (Z.to_nat retries) w)
    as (evs & Hw & Hall & Hlen).
  split; [|split].
  - rewrite Hw, new_requests_advance. exact Hlen.
  - exists evs. split; [exact Hw | exact Hall].
  - intros Hle. replace (Z.to_nat retries) with 0%nat by lia. reflexivity.
Qed.

Lemma poll_never_exceeds_retries_witness :
  FaceSwapService.get_face_swap_result happy (JStr "J1") 0 2 world0
  = (Raise retries_exceeded, world0)
  /\ FaceSwapService.get_face_swap_result happy (JStr "J1") (-3) 2 world0
     = (Raise retries_exceeded, world0).
Proof.
  split.
  - apply (proj2 (proj2 (poll_never_exceeds_retries happy (JStr "J1") 0 2 world0))).
    lia.
  - apply (proj2 (proj2 (poll_never_exceeds_retries happy (JStr "J1") (-3) 2
                           world0))).
    lia.
Defined.

Lemma slept_app (a b : list Event) : slept (a ++ b) = (slept a + slept b)%Z.
Proof.
  induction a as [|e a IH]; [reflexivity|].
  destruct e; cbn; rewrite IH; lia.
Qed.

Lemma slept_poll_rounds (req : Request) (interval : Z) (k : nat) :
  slept (poll_rounds req interval k) = (interval * Z.of_nat k)%Z.
Proof.
  induction k as [|k IH]; [cbn; lia|].
  cbn [poll_rounds slept]. rewrite IH. lia.
Qed.

Lemma last_poll_rounds (req : Request) (interval : Z) (k : nat) (d : Event) :
  last (poll_rounds req interval (S k)) d = EvSleep interval.
Proof.
  induction k as [|k IH]; [reflexivity|].
  change (poll_rounds req interval (S (S k)))
    with (EvRequest req :: EvSleep interval :: poll_rounds req interval (S k)).
  cbn [last]. exact IH.
Qed.

(** X8.  The loop sleeps after every answer that finds the job still
    running and at no other time.  A call that ends at its [k]-th poll
    has slept [2k] seconds and ends on that request; a call whose 30
    polls all find the job running has slept 60 seconds, the last two of
    them after the 30th answer, right before it gives up. *)
Theorem poll_sleeps_after_every_pending_answer (env : Env) (job_id : JSON)
  (w : World) :
  let run := FaceSwapService.get_face_swap_result env job_id 30 2 w in
  let answer := poll_answer env w job_id in
  ((forall i, (i < 30)%nat -> still_processing (answer i)) ->
   exists new, snd run = advance w new /\ slept new = 60%Z
               /\ last new (EvLog "") = EvSleep 2)
  /\ (forall k, (k < 30)%nat ->
        (forall i, (i < k)%nat -> still_processing (answer i)) ->
        ~ still_processing (answer k) ->
        exists new, snd run = advance w new
                    /\ slept new = (2 * Z.of_nat k)%Z
                    /\ last new (EvLog "") = EvRequest (poll_request env job_id)).
Proof.
  intros run answer. subst run. unfold FaceSwapService.get_face_swap_result.
  assert (Hi : (0 <= 2)%Z) by lia.
  change (Z.to_nat 30) with 30%nat.
  set (url := FaceSwapService.get_job_url env job_id).
  split.
  - intros Hall.
    rewrite (@poll_run_exhausted env url FaceSwapService.API_HEADERS 2 Hi
               30 w Hall).
    eexists. split; [reflexivity|]. split.
    + now rewrite slept_poll_rounds.
    + apply last_poll_rounds.
  - intros k Hk Hpre Hnot.
    rewrite (@poll_run_stop_world env url FaceSwapService.API_HEADERS 2 Hi
               30 k w Hk Hpre Hnot).
    eexists. split; [reflexivity|]. split.
    + rewrite slept_app, slept_poll_rounds. cbn. lia.
    + apply last_last.
Qed.

Lemma poll_sleeps_after_every_pending_answer_witness :
  (exists new,
      snd (FaceSwapService.get_face_swap_result never_done (JStr "J1") 30 2
             world0) = advance world0 new
      /\ slept new = 60%Z /\ last new (EvLog "") = EvSleep 2)
  /\ (exists new,
        snd (FaceSwapService.get_face_swap_result done_at_third_poll
               (JStr "J1") 30 2 world0) = advance world0 new
        /\ slept new = (2 * Z.of_nat 2)%Z
        /\ last new (EvLog "")
           = EvRequest (poll_request done_at_third_poll (JStr "J1"))).
Proof.
  split.
  - apply (proj1 (poll_sleeps_after_every_pending_answer never_done
                    (JStr "J1") world0)).
    intros i Hi. unfold poll_answer, never_done. cbn [http scripted].
    cbn [events world0 requests_made filter List.length Nat.add].
    rewrite nth_error_repeat by exact Hi.
    exact processing_reply_still_processing.
  - apply (proj2 (poll_sleeps_after_every_pending_answer done_at_third_poll
                    (JStr "J1") world0) 2%nat).
    + lia.
    + intros [|[|i]] Hi;
        [exact processing_reply_still_processing
        |exact processing_reply_still_processing
        |lia].
    + intros (r & Hr & _ & c & Hc & E).
      injection Hr as <-. injection Hc as <-. discriminate E.
Defined.

(** X9.  A 200 answer whose body is JSON but not an object (a list, a
    string, a number, null) is not guarded against either: [.get] does
    not exist on it, so creating the job, or the poll that receives it,
    fails with an [AttributeError] naming the type, not with one of the
    vendor-failure conditions. *)
Theorem body_that_is_not_an_object_is_an_attribute_error (cfg : Config)
  (env : Env) (src tgt : bytes) (job_id : JSON) (w : World) (k : nat)
  (resp : Response) (data : JSON) :
  status_code resp = 200%Z ->
  json resp = Return data ->
  (forall d, data <> JObj d) ->
  let e := AttributeError
             ("'" ++ type_name data ++ "' object has no attribute 'get'") in
  (http env (List.length (requests_made (events w))) (create_request cfg src tgt)
   = Return resp ->
   fst (FaceSwapService.create_face_swap_job cfg env src tgt w) = Raise e)
  /\ ((k < 30)%nat ->
      (forall i, (i < k)%nat -> still_processing (poll_answer env w job_id i)) ->
      poll_answer env w job_id k = Return resp ->
      fst (FaceSwapService.get_face_swap_result env job_id 30 2 w) = Raise e).
Proof.
  intros Hs Hj Hdata e.
  assert (Hget : py_get data "code" = Raise e).
  { destruct data; try reflexivity. now elim (Hdata d). }
  split.
  - intros Ha. unfold FaceSwapService.create_face_swap_job. unfold_monad.
    fold create_job_url. fold (create_request cfg src tgt).
    rewrite Ha, Hs. cbn. rewrite Hj. cbn. rewrite Hget. reflexivity.
  - intros Hk Hpre Ha.
    assert (Hi : (0 <= 2)%Z) by lia.
    unfold FaceSwapService.get_face_swap_result.
    change (Z.to_nat 30) with 30%nat.
    set (url := FaceSwapService.get_job_url env job_id) in *.
    rewrite (@poll_loop_at env url FaceSwapService.API_HEADERS 2 Hi 30 k w
               Hk Hpre).
    cbv beta. cbn [FaceSwapService.poll_loop]. unfold_monad.
    unfold poll_answer, poll_request in Ha. fold url in Ha.
    cbn [events advance]. rewrite requests_made_app, length_app.
    rewrite requests_made_poll_rounds, repeat_length.
    rewrite Ha, Hs. cbn. rewrite Hj. cbn. rewrite Hget. reflexivity.
Qed.

Lemma body_that_is_not_an_object_is_an_attribute_error_witness :
  fst (FaceSwapService.create_face_swap_job cfg0 list_on_create
         jpeg_sample png_sample world0)
  = Raise (AttributeError "'list' object has no attribute 'get'")
  /\ fst (FaceSwapService.get_face_swap_result list_on_second_poll (JStr "J1")
            30 2 world0)
     = Raise (AttributeError "'list' object has no attribute 'get'").
Proof.
  split.
  - apply (proj1 (@body_that_is_not_an_object_is_an_attribute_error cfg0
                    list_on_create jpeg_sample png_sample (JStr "J1") world0
                    0%nat reply_list_body (JArr [])
                    eq_refl eq_refl ltac:(discriminate))).
    reflexivity.
  - apply (proj2 (@body_that_is_not_an_object_is_an_attribute_error cfg0
                    list_on_second_poll jpeg_sample png_sample (JStr "J1")
                    world0 1%nat reply_list_body (JArr [])
                    eq_refl eq_refl ltac:(discriminate))).
    + lia.
    + intros [|i] Hi; [exact processing_reply_still_processing | lia].
    + reflexivity.
Defined.

(** ** File names, download and the endpoint's answers *)

Lemma randint_in_range (env : Env) (lo hi : Z) :
  (lo <= hi)%Z -> (lo <= randint env lo hi <= hi)%Z.
Proof.
  intros H. unfold randint.
  pose proof (Z.mod_pos_bound (entropy env) (hi - lo + 1)). lia.
Qed.

Lemma four_digit_text (n : Z) :
  (1000 <= n <= 9999)%Z ->
  String.length (Z_to_string n) = 4%nat /\ all_digits (Z_to_string n) = true.
Proof.
  intros Hn.
  assert (Hall : forallb (fun k =>
                            Nat.eqb (String.length
                                       (Z_to_string (1000 + Z.of_nat k))) 4
                            && all_digits (Z_to_string (1000 + Z.of_nat k)))
                   (seq 0 (Z.to_nat 9000)) = true) by (vm_compute; reflexivity).
  rewrite forallb_forall in Hall.
  specialize (Hall (Z.to_nat (n - 1000))).
  replace (1000 + Z.of_nat (Z.to_nat (n - 1000)))%Z with n in Hall by lia.
  assert (Hin : In (Z.to_nat (n - 1000)) (seq 0 (Z.to_nat 9000)))
    by (apply in_seq; lia).
  apply Hall in Hin. apply andb_true_iff in Hin. destruct Hin as [Hl Hd].
  apply Nat.eqb_eq in Hl. now split.
Qed.

(** X10.  A generated file name is [faceswap_], the time stamp, [_], a
    suffix of exactly four decimal digits, a dot and the extension.  As it
    never begins with a slash, joining it to the output directory never
    drops the directory: the path is the directory, at most one added
    slash, and the name. *)
Theorem generated_filename_shape (env : Env) (ext base : string) :
  exists suffix,
    generate_filename env ext
    = "faceswap_" ++ now_strftime env ++ "_" ++ suffix ++ "." ++ ext
    /\ String.length suffix = 4%nat /\ all_digits suffix = true
    /\ exists sep,
         (sep = "" \/ sep = "/")
         /\ os_path_join base (generate_filename env ext)
            = base ++ sep ++ generate_filename env ext.
Proof.
  exists (Z_to_string (randint env 1000 9999)).
  destruct (four_digit_text (@randint_in_range env 1000 9999 ltac:(lia)))
    as [Hl Hd].
  split; [reflexivity|]. split; [exact Hl|]. split; [exact Hd|].
  unfold os_path_join.
  change (prefix "/" (generate_filename env ext)) with false. cbv iota.
  destruct (String.eqb base "") eqn:Eb.
  - apply String.eqb_eq in Eb. subst base. exists "". split; [now left | reflexivity].
  - destruct (String.eqb _ "/").
    + exists "". split; [now left | reflexivity].
    + exists "/". split; [now right | reflexivity].
Qed.

(** X11.  A download that the network refuses touches nothing: when
    [requests.get] raises, or answers with a 4xx or 5xx status, the
    function raises (the library's error, or the HTTP error of
    [raise_for_status]) after that one request, and the disk is as it
    was: no directory made, no file written. *)
Theorem refused_download_writes_nothing (env : Env) (url : JSON)
  (output_path : string) (w : World) :
  let req := GET url [] true in
  let answer := http env (List.length (requests_made (events w))) req in
  (forall e, answer = Raise e ->
             download_image env url output_path w
             = (Raise e, advance w [EvRequest req]))
  /\ (forall resp, answer = Return resp ->
        (400 <= status_code resp < 600)%Z ->
        download_image env url output_path w
        = (Raise (LibraryError "HTTPError" (http_error_msg resp)),
           advance w [EvRequest req])).
Proof.
  intros req answer. subst answer.
  unfold download_image, raise_for_status. unfold_monad. fold req. split.
  - intros e ->. reflexivity.
  - intros resp -> Hs.
    replace ((400 <=? status_code resp) && (status_code resp <? 600))%Z
      with true by (symmetry; apply andb_true_iff; split;
                    [apply Z.leb_le | apply Z.ltb_lt]; lia).
    reflexivity.
Qed.

Lemma refused_download_writes_nothing_witness :
  download_image (scripted [reply_not_found] (Return []))
    (JStr "https://vendor/out.jpg") "./output" world0
  = (Raise (LibraryError "HTTPError" "404 Error"),
     advance world0 [EvRequest (GET (JStr "https://vendor/out.jpg") [] true)])
  /\ download_image (scripted [] (Return [])) JNull "./output" world0
     = (Raise (LibraryError "ConnectionError" "connection refused"),
        advance world0 [EvRequest (GET JNull [] true)]).
Proof.
  split.
  - apply (proj2 (refused_download_writes_nothing
                    (scripted [reply_not_found] (Return []))
                    (JStr "https://vendor/out.jpg") "./output" world0)
             reply_not_found eq_refl).
    cbn. lia.
  - apply (proj1 (refused_download_writes_nothing (scripted [] (Return []))
                    JNull "./output" world0)
             (LibraryError "ConnectionError" "connection refused") eq_refl).
Defined.






Lemma download_image_return (env : Env) (url : JSON) (output_path : string)
  (w : World) (fp : string * string) :
  fst (download_image env url output_path w) = Return fp ->
  fp = (generate_filename env "jpg",
        os_path_join output_path (generate_filename env "jpg")).
Proof.
  intros H.
  destruct (download_image_cases env url output_path w)
    as [(e & evs & Heq & _) | (pre & content & _ & _ & _ & [Hr | (e & Hr)])].
  - rewrite Heq in H. discriminate H.
  - rewrite Hr in H. now injection H as <-.
  - rewrite Hr in H. discriminate H.
Qed.

Lemma upload_to_cos_return (env : Env) (r i k b : option string)
  (file_name base : string) (w : World) (u : string) :
  fst (upload_to_cos env r i k b file_name base w) = Return u ->
  u = "https://" ++ fmt_opt b ++ ".cos." ++ fmt_opt r ++ ".myqcloud.com/"
      ++ file_name.
Proof.
  unfold upload_to_cos. unfold_monad. cbn [fst].
  destruct (cos_upload_file env _ _) as [resp|e]; [|discriminate].
  destruct (dict_mem resp "ETag"); [|discriminate].
  now intros [= <-].
Qed.

Lemma face_swap_try_return (cfg : Config) (env : Env) (src tgt : bytes)
  (w : World) (body : SwapReply) :
  fst (face_swap_try cfg env src tgt w) = Return body ->
  FaceSwapService._validate_image src = true
  /\ FaceSwapService._validate_image tgt = true
  /\ success body = true
  /\ image_url body
     = "https://" ++ fmt_opt (bucket cfg) ++ ".cos." ++ fmt_opt (region cfg)
       ++ ".myqcloud.com/" ++ generate_filename env "jpg"
  /\ exists job_id w1 w2,
       FaceSwapService.create_face_swap_job cfg env src tgt w
       = (Return job_id, w1)
       /\ FaceSwapService.get_face_swap_result env job_id 30 2 w1
          = (Return (original_url body), w2).
Proof.
  unfold face_swap_try.
  destruct (FaceSwapService._validate_image src);
    [|cbn; discriminate].
  destruct (FaceSwapService._validate_image tgt);
    [|cbn; discriminate].
  cbn [negb orb]. rewrite bind_run.
  destruct (FaceSwapService.create_face_swap_job cfg env src tgt w)
    as [[job_id|e] w1] eqn:E1; [|discriminate].
  rewrite bind_run.
  destruct (FaceSwapService.get_face_swap_result env job_id 30 2 w1)
    as [[result_url|e] w2] eqn:E2; [|discriminate].
  rewrite bind_run.
  pose proof (download_image_return env result_url (image_output_path cfg) w2)
    as Hd.
  destruct (download_image env result_url (image_output_path cfg) w2)
    as [[fp|e] w3]; [|discriminate].
  rewrite (Hd fp eq_refl). cbv beta iota. rewrite bind_run.
  pose proof (upload_to_cos_return env (region cfg) (secret_id cfg)
                (secret_key cfg) (bucket cfg) (generate_filename env "jpg")
                (image_output_path cfg) w3) as Hu.
  destruct (upload_to_cos env (region cfg) (secret_id cfg) (secret_key cfg)
              (bucket cfg) (generate_filename env "jpg")
              (image_output_path cfg) w3)
    as [[cos_url|e] w4]; [|discriminate].
  rewrite (Hu cos_url eq_refl). rewrite bind_run.
  destruct (os_remove _ w4) as [[[]|e] w5]; [|discriminate].
  unfold ret. cbn [fst]. intros [= <-]. cbn [success image_url original_url].
  repeat split. exists job_id, w1, w2. split; [reflexivity | exact E2].
Qed.

(** X14.  What a 200 answer says.  It is given only to a request whose
    token passed and whose two uploads both passed validation; its
    [success] is true, its [original_url] is what the polling of the job
    that was created for these two uploads returned, and its [image_url]
    is [https://<bucket>.cos.<region>.myqcloud.com/<generated name>],
    an unset bucket or region showing as [None]. *)
Theorem success_reply_content (cfg : Config) (env : Env)
  (authorization : option string) (src tgt : bytes) (w : World)
  (body : SwapReply) :
  fst (post_face_swap cfg env authorization src tgt w) = Reply200 body ->
  (exists token, verify_auth_token cfg authorization = Return token)
  /\ FaceSwapService._validate_image src = true
  /\ FaceSwapService._validate_image tgt = true
  /\ success body = true
  /\ image_url body
     = "https://" ++ fmt_opt (bucket cfg) ++ ".cos." ++ fmt_opt (region cfg)
       ++ ".myqcloud.com/" ++ generate_filename env "jpg"
  /\ exists job_id w1 w2,
       FaceSwapService.create_face_swap_job cfg env src tgt w
       = (Return job_id, w1)
       /\ FaceSwapService.get_face_swap_result env job_id 30 2 w1
          = (Return (original_url body), w2).
Proof.
  unfold post_face_swap.
  destruct (verify_auth_token cfg authorization) as [token|e].
  2:{ cbn. destruct e; discriminate. }
  unfold face_swap, try_except.
  pose proof (face_swap_try_return cfg env src tgt w) as H.
  destruct (face_swap_try cfg env src tgt w) as [[body'|e] w'].
  - cbn [fst]. intros [= <-]. split; [now exists token|].
    exact (H body' eq_refl).
  - rewrite isinstance_Exception_all. unfold_monad. unfold emit.
    cbn -[String.append exn_str]. discriminate.
Qed.

Lemma success_reply_content_witness :
  exists body,
    fst (post_face_swap cfg0 happy (Some "Bearer token1")
           jpeg_sample png_sample world0) = Reply200 body
    /\ success body = true
    /\ image_url body
       = "https://pics-1250000000.cos.ap-shanghai.myqcloud.com/faceswap_20240102030405_1234.jpg"
    /\ original_url body = JStr "https://vendor/out.jpg".
Proof.
  eexists. split; [reflexivity|].
  destruct (success_reply_content cfg0 happy (Some "Bearer token1")
              jpeg_sample png_sample world0 eq_refl)
    as (_ & _ & _ & Hs & Hu & _).
  split; [exact Hs|]. split; [exact Hu | reflexivity].
Defined.
